(** * Hotel booking: validators, pricing and the booking form of [index.py]

    A shallow embedding of the booking core of [src/index.py]:
    [validate_email], [validate_phone], [calculate_booking_amount],
    [HotelDataManager.load_data], [save_data] and [initialize_rooms], and
    the form of [booking_system] with its submit block.

    Conventions of the embedding.
    - A Python [str] is a [string]; every [ascii] stands for the code point
      of the same number, so the strings covered are those over code points
      0..255. In that range the whitespace of [str.strip] and of [\s] is
      [is_space], and the digits of [\d] are [0] to [9]; beyond it [\d]
      and [\s] match further characters, which no statement here covers.
    - A Python [int] is a [Z]; a Python [float] is a binary64 [float]
      (the kernel's primitive floats, IEEE 754 round-to-nearest-even).
    - A room, booking or customer dict is a record with the keys the
      program writes.
    - A [datetime.date] is its ordinal, within the range of the type; the
      number of guests is within the bounds of its [st.number_input].
    - Code that touches the JSON files, the clock or the page runs in the
      monad [Py]: it threads the files and the clock, logs what is shown
      on the page ([st.error], [st.info], [st.success], [st.balloons]) and
      may raise.
    - Reading a file can fail in the three ways [load_data] guards against.
      Writing a file fails when the file cannot be opened at all, and when
      the world says that this file cannot be written (a file or a
      directory without write permission); [save_data] then shows the
      error and the file stays as it was. One run is sequential: nothing
      else touches the files while it lasts.

    Of the other pages the embedding has what they compute and write: the
    loop behind "Update Status" of [room_management], the submit block of
    the feedback form of [customer_feedback] (on the feedback file alone,
    by explicit state passing), the count of occupied rooms and the
    "recent" tables of [main_dashboard] and [customer_feedback]. The
    layout of the pages (columns, headers, tables and charts), the sums
    and averages of floats and [analytics_dashboard] are not part of the
    embedding. *)

From Stdlib Require Import ZArith NArith Lia List Bool Ascii String Floats Sorted.
From stdpp Require Import base decidable option list strings gmap.

Import ListNotations.
Local Open Scope string_scope.
Local Open Scope list_scope.
Local Open Scope Z_scope.

Set Default Proof Using "Type".

(* ================================================================== *)
(** * Strings *)
(* ================================================================== *)

Definition chars (s : string) : list ascii := list_ascii_of_string s.
Definition of_chars (l : list ascii) : string := string_of_list_ascii l.

Definition code (c : ascii) : N := N_of_ascii c.

Definition in_range (lo hi : N) (c : ascii) : bool :=
  ((lo <=? code c) && (code c <=? hi))%N.

Definition is_lower : ascii -> bool := in_range 97 122.
Definition is_upper : ascii -> bool := in_range 65 90.
Definition is_digit : ascii -> bool := in_range 48 57.
Definition is_letter (c : ascii) : bool := is_lower c || is_upper c.
Definition is_alnum (c : ascii) : bool := is_letter c || is_digit c.

Definition is_char (x : ascii) (c : ascii) : bool := Ascii.eqb c x.

(** [str.isspace] on one character and [\s] of [re] agree below 256:
    TAB..CR, FS..US, space, NEL (0x85) and NBSP (0xA0). *)
Definition is_space (c : ascii) : bool :=
  in_range 9 13 c || in_range 28 32 c || (code c =? 133)%N || (code c =? 160)%N.

Fixpoint lstrip (l : list ascii) : list ascii :=
  match l with
  | [] => []
  | c :: l' => if is_space c then lstrip l' else l
  end.

Definition rstrip (l : list ascii) : list ascii := rev (lstrip (rev l)).

(** [s.strip()] *)
Definition strip (s : string) : string := of_chars (rstrip (lstrip (chars s))).

(** Truth value of a [str]: non-empty. *)
Definition truthy (s : string) : bool :=
  match s with EmptyString => false | String _ _ => true end.

(* ================================================================== *)
(** * Regular expressions ([re.match]) *)
(* ================================================================== *)

Module Re.

(** The fragment of [re] syntax the two patterns use: character sets,
    concatenation, alternation and repetition. *)
Inductive regex : Type :=
| Void
| Eps
| Cls (p : ascii -> bool)
| Cat (r1 r2 : regex)
| Alt (r1 r2 : regex)
| Star (r : regex).

(** [r+], [r?], [r{n}] and [r{n,}] *)
Definition Plus (r : regex) : regex := Cat r (Star r).
Definition Opt (r : regex) : regex := Alt r Eps.
Fixpoint Rep (n : nat) (r : regex) : regex :=
  match n with
  | O => Eps
  | S n' => Cat r (Rep n' r)
  end.
Definition AtLeast (n : nat) (r : regex) : regex := Cat (Rep n r) (Star r).
Definition Chr (c : ascii) : regex := Cls (is_char c).

Fixpoint nullable (r : regex) : bool :=
  match r with
  | Void => false
  | Eps => true
  | Cls _ => false
  | Cat r1 r2 => nullable r1 && nullable r2
  | Alt r1 r2 => nullable r1 || nullable r2
  | Star _ => true
  end.

Fixpoint deriv (c : ascii) (r : regex) : regex :=
  match r with
  | Void => Void
  | Eps => Void
  | Cls p => if p c then Eps else Void
  | Cat r1 r2 =>
      if nullable r1 then Alt (Cat (deriv c r1) r2) (deriv c r2)
      else Cat (deriv c r1) r2
  | Alt r1 r2 => Alt (deriv c r1) (deriv c r2)
  | Star r1 => Cat (deriv c r1) (Star r1)
  end.

(** Does the whole of [s] match [r]? *)
Fixpoint matches (r : regex) (s : list ascii) : bool :=
  match s with
  | [] => nullable r
  | c :: s' => matches (deriv c r) s'
  end.

(** [s] without its last character, when that character is a newline. *)
Definition before_final_newline (s : list ascii) : option (list ascii) :=
  match rev s with
  | c :: s' => if is_char "010" c then Some (rev s') else None
  | [] => None
  end.

(** [re.match('^' body '$', s) is not None], no flags: [re.match] starts
    at the first character, and [$] holds at the end of the string and
    just before a newline that ends the string. *)
Definition match_to_end (body : regex) (s : string) : bool :=
  matches body (chars s)
  || match before_final_newline (chars s) with
     | Some s' => matches body s'
     | None => false
     end.

(** The words of a regular expression. *)
Inductive Lang : regex -> list ascii -> Prop :=
| L_eps : Lang Eps []
| L_cls p c : p c = true -> Lang (Cls p) [c]
| L_cat r1 r2 s1 s2 : Lang r1 s1 -> Lang r2 s2 -> Lang (Cat r1 r2) (s1 ++ s2)
| L_alt_l r1 r2 s : Lang r1 s -> Lang (Alt r1 r2) s
| L_alt_r r1 r2 s : Lang r2 s -> Lang (Alt r1 r2) s
| L_star_nil r : Lang (Star r) []
| L_star_app r s1 s2 : Lang r s1 -> Lang (Star r) s2 -> Lang (Star r) (s1 ++ s2).

End Re.

(* ================================================================== *)
(** * Validators *)
(* ================================================================== *)

Definition local_char (c : ascii) : bool :=
  is_alnum c || is_char "." c || is_char "_" c || is_char "%" c
  || is_char "+" c || is_char "-" c.

Definition domain_char (c : ascii) : bool :=
  is_alnum c || is_char "." c || is_char "-" c.

(** [[a-zA-Z0-9._%+-]+@[a-zA-Z0-9.-]+\.[a-zA-Z]{2,}] *)
Definition email_pattern : Re.regex :=
  Re.Cat (Re.Plus (Re.Cls local_char))
    (Re.Cat (Re.Chr "@")
       (Re.Cat (Re.Plus (Re.Cls domain_char))
          (Re.Cat (Re.Chr ".") (Re.AtLeast 2 (Re.Cls is_letter))))).

Definition validate_email (email : string) : bool :=
  Re.match_to_end email_pattern email.

Definition phone_sep (c : ascii) : bool := is_char "-" c || is_space c.
Definition is_6_to_9 : ascii -> bool := in_range 54 57.

(** [(\+91[-\s]?)?[6-9]\d{9}]; on code points below 256 the class [\s]
    is [is_space] and the class [\d] is [is_digit]. *)
Definition phone_pattern : Re.regex :=
  Re.Cat
    (Re.Opt (Re.Cat (Re.Chr "+")
               (Re.Cat (Re.Chr "9") (Re.Cat (Re.Chr "1") (Re.Opt (Re.Cls phone_sep))))))
    (Re.Cat (Re.Cls is_6_to_9) (Re.Rep 9 (Re.Cls is_digit))).

Definition validate_phone (phone : string) : bool :=
  Re.match_to_end phone_pattern (strip phone).

(* ================================================================== *)
(** * Exceptions and Python numbers *)
(* ================================================================== *)

(** The exceptions this code can meet; all are subclasses of [Exception]. *)
Inductive exn : Type :=
| OSError (msg : string)
| JSONDecodeError (msg : string)
| OverflowError
| UnboundLocalError (name : string).

Inductive result (A : Type) : Type :=
| Ok (a : A)
| Raise (e : exn).
Arguments Ok {A} a.
Arguments Raise {A} e.

#[global] Instance result_ret : MRet result := fun A a => Ok a.
#[global] Instance result_bind : MBind result := fun A B k m =>
  match m with
  | Ok a => k a
  | Raise e => Raise e
  end.

(** A number is an [int] or a [float]. *)
Inductive pynum : Type :=
| PyInt (z : Z)
| PyFloat (x : float).

(** The least magnitude of an [int] that [float(int)] refuses: halfway
    between the largest double and [2^1024]. *)
Definition float_overflow : Z := 2 ^ 1024 - 2 ^ 970.

(** [float(z)]: the nearest double, ties to even; [OverflowError] past
    the largest double. *)
Definition py_float_of_int (z : Z) : result float :=
  if Z.abs z <? float_overflow
  then Ok (SF2Prim (binary_normalize prec emax z 0 false))
  else Raise OverflowError.

Definition py_float (a : pynum) : result float :=
  match a with
  | PyInt z => py_float_of_int z
  | PyFloat x => Ok x
  end.

(** [a - b] and [a * b]: exact on two ints, otherwise both operands are
    taken to [float] first. *)
Definition py_sub (a b : pynum) : result pynum :=
  match a, b with
  | PyInt x, PyInt y => Ok (PyInt (x - y))
  | _, _ => x ← py_float a; y ← py_float b; Ok (PyFloat (x - y)%float)
  end.

Definition py_mul (a b : pynum) : result pynum :=
  match a, b with
  | PyInt x, PyInt y => Ok (PyInt (x * y))
  | _, _ => x ← py_float a; y ← py_float b; Ok (PyFloat (x * y)%float)
  end.

(** The integer nearest to [num / den] ([den > 0]), ties to even. *)
Definition div_half_even (num den : Z) : Z :=
  let q := num / den in
  match Z.compare (2 * (num mod den)) den with
  | Lt => q
  | Eq => if Z.even q then q else q + 1
  | Gt => q + 1
  end.

(** [round(x, ndigits)] on a float, [ndigits >= 0]: the exact value of
    [x] is rounded to [ndigits] decimals, ties to even, and the decimal
    is read back as the nearest double. *)
Definition float_round (x : float) (ndigits : nat) : float :=
  match Prim2SF x with
  | S754_finite s m e =>
      let scale := 10 ^ Z.of_nat ndigits in
      let q :=
        if 0 <=? e then Z.pos m * 2 ^ e * scale
        else div_half_even (Z.pos m * scale) (2 ^ (- e)) in
      match q, scale with
      | Z.pos n, Z.pos d =>
          SF2Prim (SFdiv prec emax (S754_finite s n 0) (S754_finite false d 0))
      | _, _ => SF2Prim (S754_zero s)
      end
  | _ => x
  end.

(** [round(a, ndigits)], [ndigits >= 0]: an int is returned as it is. *)
Definition py_round (a : pynum) (ndigits : nat) : pynum :=
  match a with
  | PyInt z => PyInt z
  | PyFloat x => PyFloat (float_round x ndigits)
  end.

(** The literals [0.15] and [0.10]. *)
Definition lit_0_15 : float := 0x1.3333333333333p-3%float.
Definition lit_0_10 : float := 0x1.999999999999ap-4%float.

(* ================================================================== *)
(** * Pricing *)
(* ================================================================== *)

Definition base_prices : gmap string Z :=
  list_to_map
    [("Standard", 2500); ("Deluxe", 4000); ("Suite", 7500); ("Presidential", 15000)].

Definition calculate_booking_amount (room_type : string) (nights guests : Z)
  : result pynum :=
  let base_price := default 2500 (base_prices !! room_type) in
  let extra_guest_charge := Z.max 0 (guests - 2) * 500 * nights in
  let discount :=
    if 7 <=? nights then PyFloat lit_0_15
    else if 3 <=? nights then PyFloat lit_0_10
    else PyInt 0 in
  let total := PyInt (base_price * nights + extra_guest_charge) in
  factor ← py_sub (PyInt 1) discount;
  total ← py_mul total factor;
  Ok (py_round total 2).

(* ================================================================== *)
(** * Dates and clock readings *)
(* ================================================================== *)

Definition digit (d : Z) : ascii := ascii_of_N (48 + Z.to_N (d mod 10)).

(** ["%02d"] and ["%04d"] on a number that fits the width. *)
Definition zfill2 (n : Z) : string :=
  String (digit (n / 10)) (String (digit n) "").
Definition zfill4 (n : Z) : string :=
  String (digit (n / 1000)) (String (digit (n / 100)) (zfill2 n)).

(** A [datetime.date], held as its proleptic Gregorian ordinal:
    [date.min] is day 1 and [date.max] (9999-12-31) is day 3652059.
    Dates compare as their ordinals do, and the difference of two dates
    is the difference of their ordinals, in days. *)
Record date : Type := Date {
  toordinal : Z;
  date_in_range : bool_decide (1 <= toordinal <= 3652059)
}.

(** [date.fromordinal(n)] as [date.__add__] uses it: [OverflowError]
    outside [date.min .. date.max]. *)
Definition fromordinal (n : Z) : result date :=
  match decide (Is_true (bool_decide (1 <= n <= 3652059))) with
  | left in_range => Ok (Date n in_range)
  | right _ => Raise OverflowError
  end.

(** [d + timedelta(days=days)] *)
Definition date_add_days (d : date) (days : Z) : result date :=
  fromordinal (toordinal d + days).

Definition days_before_month (month : Z) : Z :=
  nth (Z.to_nat month) [-1; 0; 31; 59; 90; 120; 151; 181; 212; 243; 273; 304; 334] 0.
Definition days_in_month (month : Z) : Z :=
  nth (Z.to_nat month) [-1; 31; 28; 31; 30; 31; 30; 31; 31; 30; 31; 30; 31] 0.

(** Year, month and day of an ordinal ([_ord2ymd] of [datetime]). *)
Definition ord2ymd (n : Z) : Z * Z * Z :=
  let n := n - 1 in
  let n400 := n / 146097 in
  let n := n mod 146097 in
  let year := n400 * 400 + 1 in
  let n100 := n / 36524 in
  let n := n mod 36524 in
  let n4 := n / 1461 in
  let n := n mod 1461 in
  let n1 := n / 365 in
  let n := n mod 365 in
  let year := year + n100 * 100 + n4 * 4 + n1 in
  if (n1 =? 4) || (n100 =? 4) then (year - 1, 12, 31)
  else
    let leapyear := (n1 =? 3) && (negb (n4 =? 24) || (n100 =? 3)) in
    let month := Z.shiftr (n + 50) 5 in
    let preceding :=
      days_before_month month + (if (2 <? month) && leapyear then 1 else 0) in
    if n <? preceding then
      let month := month - 1 in
      let preceding :=
        preceding
        - (days_in_month month + (if (month =? 2) && leapyear then 1 else 0)) in
      (year, month, n - preceding + 1)
    else (year, month, n - preceding + 1).

(** [str(d)]: ["YYYY-MM-DD"]. *)
Definition date_str (d : date) : string :=
  let '(y, m, dd) := ord2ymd (toordinal d) in
  zfill4 y +:+ "-" +:+ zfill2 m +:+ "-" +:+ zfill2 dd.

(** A reading of [datetime.now()]. *)
Record datetime : Type := Datetime {
  dt_year : Z;
  dt_month : Z;
  dt_day : Z;
  dt_hour : Z;
  dt_minute : Z;
  dt_second : Z;
  dt_microsecond : Z
}.

(** [t.strftime('%Y%m%d%H%M%S')] *)
Definition strftime_compact (t : datetime) : string :=
  zfill4 (dt_year t) +:+ zfill2 (dt_month t) +:+ zfill2 (dt_day t)
  +:+ zfill2 (dt_hour t) +:+ zfill2 (dt_minute t) +:+ zfill2 (dt_second t).

(** [t.strftime("%Y-%m-%d %H:%M:%S")] *)
Definition strftime_stamp (t : datetime) : string :=
  zfill4 (dt_year t) +:+ "-" +:+ zfill2 (dt_month t) +:+ "-" +:+ zfill2 (dt_day t)
  +:+ " " +:+ zfill2 (dt_hour t) +:+ ":" +:+ zfill2 (dt_minute t)
  +:+ ":" +:+ zfill2 (dt_second t).

(* ================================================================== *)
(** * Records of the three collections *)
(* ================================================================== *)

Module Room.
Record t : Type := mk {
  room_number : string;
  room_type : string;
  price : Z;
  capacity : Z;
  status : string
}.
End Room.

Module Booking.
Record t : Type := mk {
  booking_id : string;
  customer_name : string;
  customer_email : string;
  customer_phone : string;
  customer_address : string;
  id_proof : string;
  id_number : string;
  room_number : string;
  room_type : string;
  guests : Z;
  check_in : string;
  check_out : string;
  nights : Z;
  total_amount : pynum;
  special_requests : string;
  booking_date : string;
  status : string
}.
End Booking.

Module Customer.
Record t : Type := mk {
  name : string;
  email : string;
  phone : string;
  address : string;
  registration_date : string
}.
End Customer.

(** What the widgets of the booking form hold when the script runs.
    [guests] comes from [st.number_input] with [min_value=1] and
    [max_value=6]. *)
Module Form.
Record t : Type := mk {
  customer_name : string;
  customer_email : string;
  customer_phone : string;
  customer_address : string;
  id_proof : string;
  id_number : string;
  room_type : string;
  guests : Z;
  guests_in_range : bool_decide (1 <= guests <= 6);
  check_in : date;
  check_out : date;
  special_requests : string
}.
End Form.

(* ================================================================== *)
(** * The files, the clock and the page *)
(* ================================================================== *)

(** A JSON file as [load_data] can find it: no such file, a file that
    [open] refuses, a file whose text [json.load] refuses, or a file
    holding a list of records. *)
Inductive file (A : Type) : Type :=
| Missing
| Unopenable (e : exn)
| Unparsable (e : exn)
| Holds (data : A).
Arguments Missing {A}.
Arguments Unopenable {A} e.
Arguments Unparsable {A} e.
Arguments Holds {A} data.

(** The three files of the booking page. *)
Inductive file_name : Type := RoomsJson | BookingsJson | CustomersJson.

Record World : Type := mkWorld {
  rooms_json : file (list Room.t);
  bookings_json : file (list Booking.t);
  customers_json : file (list Customer.t);
  clock : nat -> datetime;   (* the readings [datetime.now()] will give *)
  ticks : nat;               (* how many readings were taken *)
  write_error : file_name -> option exn
    (* what [open(path, 'w')] raises on a file that can be read, or does
       not exist yet, but cannot be written *)
}.

(** What the script shows on the page. *)
Inductive shown : Type :=
| StError (text : string)
| StErrorLoading (e : exn)        (* st.error(f"Error loading data: {e}") *)
| StErrorSaving (e : exn)         (* st.error(f"Error saving data: {e}") *)
| StInfoTotal (total_amount : pynum) (nights : Z)
| StSuccess (booking_id : string) (* "Booking confirmed! Booking ID: ..." *)
| StBalloons.

(** One run of a piece of the script. *)
Record run (A : Type) : Type := mkRun {
  outcome : result A;
  world : World;
  page : list shown
}.
Arguments mkRun {A} outcome world page.
Arguments outcome {A} r.
Arguments world {A} r.
Arguments page {A} r.

Definition Py (A : Type) : Type := World -> run A.

#[global] Instance Py_ret : MRet Py := fun A a w => mkRun (Ok a) w [].
#[global] Instance Py_bind : MBind Py := fun A B k m w =>
  match m w with
  | mkRun (Ok a) w' pg =>
      match k a w' with
      | mkRun o w'' pg' => mkRun o w'' (pg ++ pg')
      end
  | mkRun (Raise e) w' pg => mkRun (Raise e) w' pg
  end.

Definition raise {A} (e : exn) : Py A := fun w => mkRun (Raise e) w [].

Definition lift {A} (r : result A) : Py A := fun w => mkRun r w [].

(** [try: body / except Exception as e: handler] *)
Definition try_except {A} (body : Py A) (handler : exn -> Py A) : Py A := fun w =>
  match body w with
  | mkRun (Ok a) w' pg => mkRun (Ok a) w' pg
  | mkRun (Raise e) w' pg =>
      match handler e w' with
      | mkRun o w'' pg' => mkRun o w'' (pg ++ pg')
      end
  end.

Definition show (s : shown) : Py unit := fun w => mkRun (Ok tt) w [s].

Definition datetime_now : Py datetime := fun w =>
  mkRun (Ok (clock w (ticks w)))
        (mkWorld (rooms_json w) (bookings_json w) (customers_json w)
                 (clock w) (S (ticks w)) (write_error w))
        [].

(** Reading a local variable that some paths leave unassigned. *)
Definition local {A} (name : string) (v : option A) : Py A :=
  match v with
  | Some a => mret a
  | None => raise (UnboundLocalError name)
  end.

(** A path constant, by the file it names. *)
Record path (A : Type) : Type := mkPath {
  file_at : World -> file (list A);
  put_file : file (list A) -> World -> World;
  path_name : file_name
}.
Arguments file_at {A} p w.
Arguments put_file {A} p f w.
Arguments path_name {A} p.

Definition ROOMS_FILE : path Room.t :=
  mkPath _ rooms_json
    (fun f w => mkWorld f (bookings_json w) (customers_json w) (clock w) (ticks w)
                        (write_error w))
    RoomsJson.
Definition BOOKINGS_FILE : path Booking.t :=
  mkPath _ bookings_json
    (fun f w => mkWorld (rooms_json w) f (customers_json w) (clock w) (ticks w)
                        (write_error w))
    BookingsJson.
Definition CUSTOMERS_FILE : path Customer.t :=
  mkPath _ customers_json
    (fun f w => mkWorld (rooms_json w) (bookings_json w) f (clock w) (ticks w)
                        (write_error w))
    CustomersJson.

Definition os_path_exists {A} (p : path A) : Py bool := fun w =>
  mkRun (Ok (match file_at p w with Missing => false | _ => true end)) w [].

(** [open(file_path, 'r')]: the file as the reader will see it. *)
Definition open_r {A} (p : path A) : Py (file (list A)) := fun w =>
  match file_at p w with
  | Missing => mkRun (Raise (OSError "No such file or directory")) w []
  | Unopenable e => mkRun (Raise e) w []
  | f => mkRun (Ok f) w []
  end.

Definition json_load {A} (f : file (list A)) : Py (list A) :=
  match f with
  | Holds data => mret data
  | Unparsable e => raise e
  | Unopenable e => raise e
  | Missing => raise (OSError "No such file or directory")
  end.

(** What [open(path, 'w')] raises, if it does: the error of opening on a
    file that cannot be opened, and else what the world says about
    writing this file. *)
Definition write_failure_of {A} (f : file (list A)) (on_write : option exn)
  : option exn :=
  match f with
  | Unopenable e => Some e
  | _ => on_write
  end.

Definition write_failure {A} (p : path A) (w : World) : option exn :=
  write_failure_of (file_at p w) (write_error w (path_name p)).

(** [with open(file_path, 'w') as f: json.dump(data, f, ...)]: where
    [open] raises, the file stays as it was; else the file now holds
    [data] (every value the program stores is a string, a number or a
    list of strings, which [json.dump] takes). *)
Definition open_w_dump {A} (p : path A) (data : list A) : Py unit := fun w =>
  match write_failure p w with
  | Some e => mkRun (Raise e) w []
  | None => mkRun (Ok tt) (put_file p (Holds data) w) []
  end.

(* ================================================================== *)
(** * HotelDataManager *)
(* ================================================================== *)

Definition load_data {A} (file_path : path A) : Py (list A) :=
  returned ← try_except
    (found ← os_path_exists file_path;
     if found : bool then
       f ← open_r file_path;
       data ← json_load f;
       mret (Some data)
     else mret None)
    (fun e => _ ← show (StErrorLoading e); mret None);
  mret (default [] returned).

Definition save_data {A} (file_path : path A) (data : list A) : Py unit :=
  try_except (open_w_dump file_path data) (fun e => show (StErrorSaving e)).

Definition default_rooms : list Room.t :=
  [ Room.mk "101" "Standard" 2500 2 "Available";
    Room.mk "102" "Standard" 2500 2 "Available";
    Room.mk "201" "Deluxe" 4000 3 "Available";
    Room.mk "202" "Deluxe" 4000 3 "Available";
    Room.mk "301" "Suite" 7500 4 "Available";
    Room.mk "302" "Suite" 7500 4 "Available";
    Room.mk "401" "Presidential" 15000 6 "Available" ].

Definition initialize_rooms : Py unit :=
  rooms ← load_data ROOMS_FILE;
  match rooms with
  | [] => save_data ROOMS_FILE default_rooms
  | _ :: _ => mret tt
  end.

(* ================================================================== *)
(** * The booking form ([booking_system]) *)
(* ================================================================== *)

(** [for x in xs: body(x)] *)
Fixpoint for_each {A} (xs : list A) (body : A -> Py unit) : Py unit :=
  match xs with
  | [] => mret tt
  | x :: xs' => _ ← body x; for_each xs' body
  end.

(** [[r for r in rooms if r['status'] == 'Available']] *)
Definition available (rooms : list Room.t) : list Room.t :=
  filter (fun r => Room.status r = "Available") rooms.

(** "Calculate and display price": leaves the locals [nights] and
    [total_amount] assigned or not. *)
Definition show_price (f : Form.t) : Py (option Z * option pynum) :=
  if truthy (Form.room_type f) then
    let nights := toordinal (Form.check_out f) - toordinal (Form.check_in f) in
    if 0 <? nights then
      total_amount ←
        lift (calculate_booking_amount (Form.room_type f) nights (Form.guests f));
      _ ← show (StInfoTotal total_amount nights);
      mret (Some nights, Some total_amount)
    else mret (Some nights, None)
  else mret (None, None).

Definition name_required : string := "Customer name is required".
Definition email_required : string := "Valid email address is required".
Definition phone_required : string := "Valid phone number is required".
Definition dates_required : string := "Check-out date must be after check-in date".

(** The list [errors] after the four checks. *)
Definition validation_errors (f : Form.t) : list string :=
  let errors := [] in
  let errors :=
    if negb (truthy (strip (Form.customer_name f)))
    then errors ++ [name_required] else errors in
  let errors :=
    if negb (truthy (strip (Form.customer_email f)))
       || negb (validate_email (Form.customer_email f))
    then errors ++ [email_required] else errors in
  let errors :=
    if negb (truthy (strip (Form.customer_phone f)))
       || negb (validate_phone (Form.customer_phone f))
    then errors ++ [phone_required] else errors in
  let errors :=
    if toordinal (Form.check_out f) <=? toordinal (Form.check_in f)
    then errors ++ [dates_required] else errors in
  errors.

(** [next((r for r in available_rooms if r['room_type'] == room_type), None)] *)
Definition select_room (available_rooms : list Room.t) (room_type : string)
  : option Room.t :=
  snd <$> list_find (fun r => Room.room_type r = room_type) available_rooms.

(** One turn of the loop that marks the booked room. *)
Definition occupy (selected_room room : Room.t) : Room.t :=
  if bool_decide (Room.room_number room = Room.room_number selected_room)
  then Room.mk (Room.room_number room) (Room.room_type room) (Room.price room)
               (Room.capacity room) "Occupied"
  else room.

Definition known_email (email : string) (customers : list Customer.t) : bool :=
  existsb (fun c => bool_decide (Customer.email c = email)) customers.

(** The dict [booking], from the form, the chosen room, the locals
    [nights] and [total_amount] and two readings of the clock. *)
Definition make_booking (f : Form.t) (selected_room : Room.t) (nights : Z)
    (total_amount : pynum) (now now' : datetime) : Booking.t :=
  Booking.mk
    ("BK" +:+ strftime_compact now)
    (Form.customer_name f)
    (Form.customer_email f)
    (Form.customer_phone f)
    (Form.customer_address f)
    (Form.id_proof f)
    (Form.id_number f)
    (Room.room_number selected_room)
    (Form.room_type f)
    (Form.guests f)
    (date_str (Form.check_in f))
    (date_str (Form.check_out f))
    nights
    total_amount
    (Form.special_requests f)
    (strftime_stamp now')
    "Confirmed".

(** The dict [customer]. *)
Definition make_customer (f : Form.t) (now : datetime) : Customer.t :=
  Customer.mk
    (Form.customer_name f)
    (Form.customer_email f)
    (Form.customer_phone f)
    (Form.customer_address f)
    (strftime_stamp now).

(** The body of [if submitted:]. The dict display of [booking] reads the
    clock, then [nights] and [total_amount], then the clock again. *)
Definition submit (rooms available_rooms : list Room.t) (f : Form.t)
    (nights : option Z) (total_amount : option pynum) : Py unit :=
  match validation_errors f with
  | (_ :: _) as errors => for_each errors (fun error => show (StError error))
  | [] =>
      match select_room available_rooms (Form.room_type f) with
      | Some selected_room =>
          now ← datetime_now;
          nights ← local "nights" nights;
          total_amount ← local "total_amount" total_amount;
          now' ← datetime_now;
          let booking := make_booking f selected_room nights total_amount now now' in
          bookings ← load_data BOOKINGS_FILE;
          _ ← save_data BOOKINGS_FILE (bookings ++ [booking]);
          _ ← save_data ROOMS_FILE (map (occupy selected_room) rooms);
          customers ← load_data CUSTOMERS_FILE;
          _ ← (if negb (known_email (Form.customer_email f) customers) then
                 now'' ← datetime_now;
                 let customer := make_customer f now'' in
                 save_data CUSTOMERS_FILE (customers ++ [customer])
               else mret tt);
          _ ← show (StSuccess (Booking.booking_id booking));
          show StBalloons
      | None => mret tt
      end
  end.

(** The form, once rooms are on offer. *)
Definition booking_form (rooms available_rooms : list Room.t) (f : Form.t)
    (submitted : bool) : Py unit :=
  '(nights, total_amount) ← show_price f;
  if submitted then submit rooms available_rooms f nights total_amount
  else mret tt.

(** The page. Of the widgets above the price, one computes:
    the check-out widget takes [min_value=check_in + timedelta(days=1)]. *)
Definition booking_system (f : Form.t) (submitted : bool) : Py unit :=
  rooms ← load_data ROOMS_FILE;
  let available_rooms := available rooms in
  match available_rooms with
  | [] => show (StError "No rooms available for booking!")
  | _ :: _ =>
      _ ← lift (date_add_days (Form.check_in f) 1);
      booking_form rooms available_rooms f submitted
  end.

(** A press of "Book Room" on the form drawn over the snapshot [rooms]. *)
Definition submit_booking (rooms : list Room.t) (f : Form.t) : Py unit :=
  booking_form rooms (available rooms) f true.


(* ================================================================== *)
(** * Reading a run *)
(* ================================================================== *)

(** A collection as [load_data] returns it. *)
Definition collection {A} (p : path A) (w : World) : list A :=
  match file_at p w with
  | Holds data => data
  | _ => []
  end.

(** What [load_data] shows while loading. *)
Definition load_page {A} (p : path A) (w : World) : list shown :=
  match file_at p w with
  | Unopenable e | Unparsable e => [StErrorLoading e]
  | _ => []
  end.

(** What [save_data] leaves in the file and what it shows. *)
Definition saved {A} (p : path A) (data : list A) (w : World) : file (list A) :=
  match write_failure p w with
  | Some _ => file_at p w
  | None => Holds data
  end.

Definition save_page {A} (p : path A) (w : World) : list shown :=
  match write_failure p w with
  | Some e => [StErrorSaving e]
  | None => []
  end.

(** The nights between the two dates of the form. *)
Definition stay (f : Form.t) : Z :=
  toordinal (Form.check_out f) - toordinal (Form.check_in f).

(** The line under the form that shows the price. *)
Definition price_line (f : Form.t) : list shown :=
  if truthy (Form.room_type f) && (0 <? stay f) then
    match calculate_booking_amount (Form.room_type f) (stay f) (Form.guests f) with
    | Ok total_amount => [StInfoTotal total_amount (stay f)]
    | Raise _ => []
    end
  else [].

(** The locals [nights] and [total_amount] once the price was shown. *)
Definition locals_after_price (f : Form.t) : option Z * option pynum :=
  if truthy (Form.room_type f) then
    (Some (stay f),
     if 0 <? stay f then
       match calculate_booking_amount (Form.room_type f) (stay f) (Form.guests f) with
       | Ok total_amount => Some total_amount
       | Raise _ => None
       end
     else None)
  else (None, None).

(** The world once [n] more readings of the clock were taken. *)
Definition after_readings (n : nat) (w : World) : World :=
  mkWorld (rooms_json w) (bookings_json w) (customers_json w) (clock w)
          (n + ticks w) (write_error w).

(** The booking and the customer a confirmed run writes. *)
Definition booking_of (f : Form.t) (selected_room : Room.t)
    (total_amount : pynum) (w : World) : Booking.t :=
  make_booking f selected_room (stay f) total_amount
               (clock w (ticks w)) (clock w (S (ticks w))).

Definition customer_of (f : Form.t) (w : World) : Customer.t :=
  make_customer f (clock w (S (S (ticks w)))).

(** The run confirmed a booking. *)
Definition booked {A} (r : run A) : Prop :=
  exists booking_id, In (StSuccess booking_id) (page r).

(** A room record with its status set to ['Occupied']. *)
Definition occupied (r : Room.t) : Room.t :=
  Room.mk (Room.room_number r) (Room.room_type r) (Room.price r)
          (Room.capacity r) "Occupied".

(** The four checks, as the specification words them. *)
Definition name_blank (f : Form.t) : Prop :=
  strip (Form.customer_name f) = "".
Definition email_bad (f : Form.t) : Prop :=
  strip (Form.customer_email f) = ""
  \/ validate_email (Form.customer_email f) = false.
Definition phone_bad (f : Form.t) : Prop :=
  strip (Form.customer_phone f) = ""
  \/ validate_phone (Form.customer_phone f) = false.
Definition dates_bad (f : Form.t) : Prop :=
  toordinal (Form.check_out f) <= toordinal (Form.check_in f).

(** The same checks as the script tests them. *)
Definition name_check (f : Form.t) : bool :=
  negb (truthy (strip (Form.customer_name f))).
Definition email_check (f : Form.t) : bool :=
  negb (truthy (strip (Form.customer_email f)))
  || negb (validate_email (Form.customer_email f)).
Definition phone_check (f : Form.t) : bool :=
  negb (truthy (strip (Form.customer_phone f)))
  || negb (validate_phone (Form.customer_phone f)).
Definition dates_check (f : Form.t) : bool :=
  toordinal (Form.check_out f) <=? toordinal (Form.check_in f).

Definition valid_request (f : Form.t) : Prop :=
  ~ name_blank f /\ ~ email_bad f /\ ~ phone_bad f /\ ~ dates_bad f.


(** [date.max] *)
Definition date_max_ordinal : Z := 3652059.

(** A room of the snapshot that can be booked for [room_type]. *)
Definition bookable (room_type : string) (r : Room.t) : Prop :=
  Room.room_type r = room_type /\ Room.status r = "Available".

Definition bookableb (room_type : string) (r : Room.t) : bool :=
  bool_decide (Room.status r = "Available")
  && bool_decide (Room.room_type r = room_type).


(* ================================================================== *)
(** * The price in exact arithmetic *)
(* ================================================================== *)

Definition table_price (room_type : string) : Z :=
  if String.eqb room_type "Standard" then 2500
  else if String.eqb room_type "Deluxe" then 4000
  else if String.eqb room_type "Suite" then 7500
  else if String.eqb room_type "Presidential" then 15000
  else 2500.

Definition discount_for (nights : Z) : pynum :=
  if 7 <=? nights then PyFloat lit_0_15
  else if 3 <=? nights then PyFloat lit_0_10
  else PyInt 0.

(** The body of [calculate_booking_amount] over a base price, floats
    and all: it serves to run the code over a grid of inputs. *)
Definition price_formula (base_price nights guests : Z) (discount : pynum)
  : result pynum :=
  keep ← py_sub (PyInt 1) discount;
  total ←
    py_mul (PyInt (base_price * nights + Z.max 0 (guests - 2) * 500 * nights)) keep;
  Ok (py_round total 2).

(** The amount as the specification computes it,
    [(base_price * nights + max(0, guests - 2) * 500 * nights) * (1 - discount)],
    in exact arithmetic: the share kept after the discount, in hundredths,
    and the amount in rupees (every price of the table is a multiple of
    500, so the division by 100 is exact and rounding to two places
    changes nothing). *)
Definition percent_kept (nights : Z) : Z :=
  if 7 <=? nights then 85 else if 3 <=? nights then 90 else 100.

Definition exact_amount (base_price nights guests : Z) : Z :=
  (base_price * nights + Z.max 0 (guests - 2) * 500 * nights)
  * percent_kept nights / 100.

(** [a == b] on numbers: an int and a float are equal when the float's
    exact value is that int. *)
Definition py_eq (a b : pynum) : bool :=
  let int_float (z : Z) (x : float) : bool :=
    match Prim2SF x with
    | S754_zero _ => z =? 0
    | S754_finite s m e =>
        if 0 <=? e then z =? (if s then - (Z.pos m * 2 ^ e) else Z.pos m * 2 ^ e)
        else (if s then - Z.pos m else Z.pos m) =? z * 2 ^ (- e)
    | _ => false
    end in
  match a, b with
  | PyInt x, PyInt y => x =? y
  | PyFloat x, PyFloat y => PrimFloat.eqb x y
  | PyInt z, PyFloat x => int_float z x
  | PyFloat x, PyInt z => int_float z x
  end.

(** Does the code, run on floats, give the exact amount? *)
Definition agrees (base_price nights guests : Z) : bool :=
  match price_formula base_price nights guests (discount_for nights) with
  | Ok total_amount => py_eq total_amount (PyInt (exact_amount base_price nights guests))
  | Raise _ => false
  end.

(** Every price of the table, stays of 1 to 366 nights, 1 to 6 guests. *)
Definition year_grid : list (Z * Z * Z) :=
  list_prod (list_prod [2500; 4000; 7500; 15000] (map Z.of_nat (seq 1 366)))
            [1; 2; 3; 4; 5; 6].

(* ================================================================== *)
(** * The shapes the specification names *)
(* ================================================================== *)

Definition newline : ascii := "010".

(** [local@domain.tld]: a non-empty run of letters, digits and [._%+-],
    an [@], the domain labels (letters, digits, hyphens) with the dots
    between them, a dot, and a last label of two letters or more. *)
Definition email_shape (s : list ascii) : Prop :=
  exists loc domain tld,
    s = loc ++ "@"%char :: domain ++ "."%char :: tld
    /\ loc <> [] /\ forallb local_char loc = true
    /\ domain <> [] /\ forallb domain_char domain = true
    /\ (2 <= length tld)%nat /\ forallb is_letter tld = true.

Definition country_code : list ascii := chars "+91".

(** The prefix as the specification words it: none, or [+91]. *)
Definition bare_prefix (p : list ascii) : Prop :=
  p = [] \/ p = country_code.

(** The prefix as the pattern has it: none, [+91], or [+91] and one
    hyphen or whitespace character. *)
Definition separated_prefix (p : list ascii) : Prop :=
  p = [] \/ p = country_code
  \/ exists c, phone_sep c = true /\ p = country_code ++ [c].

(** A prefix, then ten digits of which the first is 6, 7, 8 or 9. *)
Definition phone_shape (prefix_ok : list ascii -> Prop) (s : list ascii) : Prop :=
  exists prefix first rest,
    s = prefix ++ first :: rest
    /\ prefix_ok prefix
    /\ is_6_to_9 first = true
    /\ length rest = 9%nat /\ forallb is_digit rest = true.

(* ================================================================== *)
(** * Inputs used in the examples *)
(* ================================================================== *)

(** Clock readings that all fall in one second. *)
Definition reading (microsecond : nat) : datetime :=
  Datetime 2024 11 1 9 5 7 (Z.of_nat microsecond).

(** Every file can be written. *)
Definition writable : file_name -> option exn := fun _ => None.

(** A hotel with the given rooms, no booking and no customer yet. *)
Definition hotel (rooms : list Room.t) : World :=
  mkWorld (Holds rooms) Missing Missing reading 0 writable.



Definition request (name email : string) (room_type : string)
    (check_in check_out : date) : Form.t :=
  Form.mk name email "9876543210" "12 MG Road" "Passport" "P1234567"
          room_type 2 I check_in check_out "".

Definition nov_10 : date := Date 739200 I.
Definition nov_13 : date := Date 739203 I.

Definition asha : Form.t :=
  request "Asha Rao" "asha@example.com" "Deluxe" nov_10 nov_13.
Definition ravi : Form.t :=
  request "Ravi Nair" "ravi@example.com" "Suite" nov_10 nov_13.
(** A form that fails all four checks. *)
Definition all_wrong : Form.t :=
  Form.mk "  " "bad@" "1234567890" "" "Passport" "" "Deluxe" 2 I nov_13 nov_10 "".

(** Two bookings, one after the other. *)
Definition first_run : run unit := submit_booking default_rooms asha (hotel default_rooms).
Definition second_run : run unit :=
  submit_booking (collection ROOMS_FILE (world first_run)) ravi (world first_run).

(** ["a@b.co\n"] *)
Definition email_then_newline : string := "a@b.co" +:+ String newline "".

(* ================================================================== *)
(** * Room management ([room_management], "Update Status") *)
(* ================================================================== *)

(** The loop of the button: the first room that has the number gets the
    new status, and the loop breaks. *)
Fixpoint set_status (room_to_update new_status : string) (rooms : list Room.t)
  : list Room.t :=
  match rooms with
  | [] => []
  | room :: rest =>
      if bool_decide (Room.room_number room = room_to_update)
      then Room.mk (Room.room_number room) (Room.room_type room)
                   (Room.price room) (Room.capacity room) new_status
           :: rest
      else room :: set_status room_to_update new_status rest
  end.

(** A press of "Update Status": the page loads rooms and bookings, runs
    the loop and saves the rooms. Of what the page shows, only the errors
    of loading are logged here (not the table, the charts or the line that
    confirms the update); [st.rerun()] then ends the run. *)
Definition update_room_status (room_to_update new_status : string) : Py unit :=
  rooms ← load_data ROOMS_FILE;
  _ ← load_data BOOKINGS_FILE;
  save_data ROOMS_FILE (set_status room_to_update new_status rooms).

(** What identifies a room: everything but its status. *)
Definition room_identity (r : Room.t) : string * string * Z * Z :=
  (Room.room_number r, Room.room_type r, Room.price r, Room.capacity r).

(** The status of the first room that has the number. *)
Fixpoint status_of (room_number : string) (rooms : list Room.t) : option string :=
  match rooms with
  | [] => None
  | room :: rest =>
      if bool_decide (Room.room_number room = room_number)
      then Some (Room.status room)
      else status_of room_number rest
  end.

(* ================================================================== *)
(** * The dashboard's counts ([main_dashboard]) *)
(* ================================================================== *)

(** [len([r for r in rooms if r['status'] == 'Occupied'])] *)
Definition occupied_rooms (rooms : list Room.t) : nat :=
  length (filter (fun r => Room.status r = "Occupied") rooms).

(** [sorted(xs, key=key, reverse=True)]: a stable sort, greatest key first;
    records with equal keys keep the order they had. Keys are strings,
    compared as Python compares [str]: by code points, a proper prefix
    first. *)
Fixpoint insert_desc {A} (key : A -> string) (x : A) (sorted : list A) : list A :=
  match sorted with
  | [] => [x]
  | y :: rest =>
      if String.ltb (key x) (key y) then y :: insert_desc key x rest
      else x :: sorted
  end.

Definition sorted_desc {A} (key : A -> string) (xs : list A) : list A :=
  foldr (insert_desc key) [] xs.

(** [sorted(xs, key=key, reverse=True)[:n]] *)
Definition recent {A} (n : nat) (key : A -> string) (xs : list A) : list A :=
  firstn n (sorted_desc key xs).

(** [sorted(bookings, key=lambda x: x.get('booking_date', ''), reverse=True)[:5]] *)
Definition recent_bookings (bookings : list Booking.t) : list Booking.t :=
  recent 5 Booking.booking_date bookings.

(** [key a >= key b] *)
Definition not_before {A} (key : A -> string) (a b : A) : Prop :=
  String.ltb (key a) (key b) = false.

(* ================================================================== *)
(** * The feedback form ([customer_feedback]) *)
(* ================================================================== *)

Module Feedback.
Record t : Type := mk {
  feedback_id : string;
  customer_name : string;
  customer_email : string;
  booking_id : string;
  rating : Z;
  service_areas : list string;
  feedback : string;
  suggestions : string;
  date : string
}.
End Feedback.

(** What the widgets of the feedback form hold. *)
Module FeedbackForm.
Record t : Type := mk {
  customer_name : string;
  customer_email : string;
  booking_id : string;
  rating : Z;
  service_areas : list string;
  feedback_text : string;
  suggestions : string
}.
End FeedbackForm.


(** What [load_data] returns and shows, by the file it finds. *)
Definition loaded {A} (f : file (list A)) : list A :=
  match f with
  | Holds data => data
  | _ => []
  end.

Definition loading_errors {A} (f : file (list A)) : list exn :=
  match f with
  | Unopenable e | Unparsable e => [e]
  | _ => []
  end.



(** [sorted(feedback_data, key=lambda x: x['date'], reverse=True)[:3]] *)
Definition recent_feedback (feedback_data : list Feedback.t) : list Feedback.t :=
  recent 3 Feedback.date feedback_data.

(* ================================================================== *)
(** * Visits to the pages *)
(* ================================================================== *)

(** The three files are the same in two worlds. *)
Definition same_files (w w' : World) : Prop :=
  rooms_json w = rooms_json w'
  /\ bookings_json w = bookings_json w'
  /\ customers_json w = customers_json w'.

(** One run of a piece of the script that writes files: the start of a
    session, the booking page (form shown, submitted or not), a press of
    "Update Status". *)
Inductive visit : World -> World -> Prop :=
| visit_start w :
    visit w (world (initialize_rooms w))
| visit_booking f submitted w :
    visit w (world (booking_system f submitted w))
| visit_update room_to_update new_status w :
    visit w (world (update_room_status room_to_update new_status w)).

(** Runs of the start of a session and of the booking page only. *)
Inductive booking_visit : World -> World -> Prop :=
| bvisit_start w :
    booking_visit w (world (initialize_rooms w))
| bvisit_booking f submitted w :
    booking_visit w (world (booking_system f submitted w)).

(** No two customer records have the same e-mail. *)
Definition emails_unique (w : World) : Prop :=
  NoDup (map Customer.email (collection CUSTOMERS_FILE w)).

(** Every booking names a room that the rooms file has as Occupied. *)
Definition bookings_hold_rooms (w : World) : Prop :=
  forall b, In b (collection BOOKINGS_FILE w) ->
  exists r, In r (collection ROOMS_FILE w)
            /\ Room.room_number r = Booking.room_number b
            /\ Room.status r = "Occupied".

(** Any number of steps, one after the other. *)
Inductive sequence (step : World -> World -> Prop) : World -> World -> Prop :=
| sequence_nil w : sequence step w w
| sequence_cons w w' w'' :
    step w w' -> sequence step w' w'' -> sequence step w w''.

(* ================================================================== *)
(** * Facts about strings and regular expressions *)
(* ================================================================== *)

Lemma chars_of_chars (l : list ascii) : chars (of_chars l) = l.
Proof. apply list_ascii_of_string_of_list_ascii. Qed.

Lemma lstrip_head (l : list ascii) c l' :
  lstrip l = c :: l' -> is_space c = false.
Proof.
  induction l as [|a l IH]; simpl; [discriminate|].
  destruct (is_space a) eqn:Ha; [exact IH|].
  intros [= <- _]. exact Ha.
Qed.

Lemma rstrip_last (l : list ascii) t c :
  rstrip l = t ++ [c] -> is_space c = false.
Proof.
  unfold rstrip. intros H.
  apply (f_equal (@rev ascii)) in H.
  rewrite rev_involutive, rev_app_distr in H. simpl in H.
  exact (lstrip_head _ _ _ H).
Qed.

Module ReFacts.
Import Re.

Lemma Lang_Void_inv s : Lang Void s <-> False.
Proof. split; [inversion 1|easy]. Qed.

Lemma Lang_Eps_inv s : Lang Eps s <-> s = [].
Proof. split; [now inversion 1|intros ->; constructor]. Qed.

Lemma Lang_Cls_inv p s : Lang (Cls p) s <-> exists c, s = [c] /\ p c = true.
Proof.
  split.
  - inversion 1; subst; eauto.
  - intros (c & -> & H). now constructor.
Qed.

Lemma Lang_Cat_inv r1 r2 s :
  Lang (Cat r1 r2) s <-> exists s1 s2, s = s1 ++ s2 /\ Lang r1 s1 /\ Lang r2 s2.
Proof.
  split.
  - inversion 1; subst; eauto.
  - intros (s1 & s2 & -> & H1 & H2). now constructor.
Qed.

Lemma Lang_Alt_inv r1 r2 s : Lang (Alt r1 r2) s <-> Lang r1 s \/ Lang r2 s.
Proof.
  split.
  - inversion 1; subst; eauto.
  - intros [H|H]; [now apply L_alt_l|now apply L_alt_r].
Qed.

Lemma nullable_Lang r : nullable r = true <-> Lang r [].
Proof.
  induction r as [| |p|r1 IH1 r2 IH2|r1 IH1 r2 IH2|r IH]; simpl.
  - rewrite Lang_Void_inv. split; [discriminate|easy].
  - rewrite Lang_Eps_inv. easy.
  - rewrite Lang_Cls_inv. split; [discriminate|]. intros (c & [=] & _).
  - rewrite andb_true_iff, IH1, IH2, Lang_Cat_inv. split.
    + intros [H1 H2]. now exists [], [].
    + intros (s1 & s2 & E & H1 & H2). symmetry in E.
      apply app_eq_nil in E as [-> ->]. now split.
  - now rewrite orb_true_iff, IH1, IH2, Lang_Alt_inv.
  - split; [constructor|reflexivity].
Qed.

Lemma Lang_Star_cons_gen r' cs :
  Lang r' cs ->
  forall r c s, r' = Star r -> cs = c :: s ->
  exists s1 s2, s = s1 ++ s2 /\ Lang r (c :: s1) /\ Lang (Star r) s2.
Proof.
  induction 1 as [| | | | | |r0 t1 t2 H1 _ H2 IH2]; intros rr x t Er Ec;
    try discriminate.
  injection Er as Er. subst r0.
  destruct t1 as [|a t1]; simpl in Ec.
  - now apply IH2.
  - injection Ec as Ea Es. subst a t. now exists t1, t2.
Qed.

Lemma Lang_Star_cons r c s :
  Lang (Star r) (c :: s) ->
  exists s1 s2, s = s1 ++ s2 /\ Lang r (c :: s1) /\ Lang (Star r) s2.
Proof. intros H. now apply (Lang_Star_cons_gen _ _ H). Qed.

Lemma deriv_Lang c r : forall s, Lang (deriv c r) s <-> Lang r (c :: s).
Proof.
  induction r as [| |p|r1 IH1 r2 IH2|r1 IH1 r2 IH2|r IH]; intros s; simpl.
  - now rewrite !Lang_Void_inv.
  - rewrite Lang_Void_inv, Lang_Eps_inv. easy.
  - rewrite Lang_Cls_inv. destruct (p c) eqn:Hp.
    + rewrite Lang_Eps_inv. split.
      * intros ->. now exists c.
      * now intros (c' & [= -> ->] & _).
    + rewrite Lang_Void_inv. split; [easy|].
      intros (c' & [= -> ->] & H). congruence.
  - assert (Hcat : Lang (Cat (deriv c r1) r2) s <->
                   exists s1 s2, s = s1 ++ s2 /\ Lang r1 (c :: s1) /\ Lang r2 s2).
    { rewrite Lang_Cat_inv. split; intros (s1 & s2 & E & H1 & H2);
        exists s1, s2; (split; [easy|split; [now apply IH1|easy]]). }
    rewrite (Lang_Cat_inv r1 r2).
    destruct (nullable r1) eqn:N.
    + rewrite Lang_Alt_inv, Hcat, IH2. split.
      * intros [(s1 & s2 & -> & H1 & H2)|H].
        -- now exists (c :: s1), s2.
        -- apply nullable_Lang in N. now exists [], (c :: s).
      * intros (s1 & s2 & E & H1 & H2). destruct s1 as [|a s1]; simpl in E.
        -- right. now rewrite E.
        -- injection E as -> ->. left. now exists s1, s2.
    + rewrite Hcat. split.
      * intros (s1 & s2 & -> & H1 & H2). now exists (c :: s1), s2.
      * intros (s1 & s2 & E & H1 & H2). destruct s1 as [|a s1]; simpl in E.
        -- apply nullable_Lang in H1. congruence.
        -- injection E as -> ->. now exists s1, s2.
  - now rewrite !Lang_Alt_inv, IH1, IH2.
  - rewrite Lang_Cat_inv. split.
    + intros (s1 & s2 & -> & H1 & H2). apply IH in H1.
      change (c :: s1 ++ s2) with ((c :: s1) ++ s2). now constructor.
    + intros H. apply Lang_Star_cons in H as (s1 & s2 & -> & H1 & H2).
      exists s1, s2. split; [easy|split; [now apply IH|easy]].
Qed.

Lemma matches_Lang s : forall r, matches r s = true <-> Lang r s.
Proof.
  induction s as [|c s IH]; intros r; simpl.
  - apply nullable_Lang.
  - rewrite IH. apply deriv_Lang.
Qed.

Lemma Lang_Chr_inv c s : Lang (Chr c) s <-> s = [c].
Proof.
  unfold Chr. rewrite Lang_Cls_inv. unfold is_char. split.
  - intros (c' & -> & H). apply Ascii.eqb_eq in H. now subst.
  - intros ->. exists c. split; [easy|apply Ascii.eqb_refl].
Qed.

Lemma Lang_Opt_inv r s : Lang (Opt r) s <-> Lang r s \/ s = [].
Proof. unfold Opt. now rewrite Lang_Alt_inv, Lang_Eps_inv. Qed.

Lemma Lang_Star_Cls p s : Lang (Star (Cls p)) s <-> forallb p s = true.
Proof.
  induction s as [|c s IH]; simpl.
  - split; [reflexivity|constructor].
  - rewrite andb_true_iff, <- IH. split.
    + intros H. apply Lang_Star_cons in H as (s1 & s2 & -> & H1 & H2).
      apply Lang_Cls_inv in H1 as (c' & [= -> ->] & Hp). now split.
    + intros [Hp H]. change (c :: s) with ([c] ++ s).
      constructor; [now constructor|easy].
Qed.

Lemma Lang_Plus_Cls p s :
  Lang (Plus (Cls p)) s <-> s <> [] /\ forallb p s = true.
Proof.
  unfold Plus. rewrite Lang_Cat_inv. split.
  - intros (s1 & s2 & -> & H1 & H2).
    apply Lang_Cls_inv in H1 as (c & -> & Hp).
    apply Lang_Star_Cls in H2. simpl. rewrite Hp, H2. now split.
  - intros [Hne H]. destruct s as [|c s]; [easy|]. simpl in H.
    apply andb_true_iff in H as [Hp H]. exists [c], s.
    split; [easy|]. split; [now constructor|now apply Lang_Star_Cls].
Qed.

Lemma Lang_Rep_Cls n p : forall s,
  Lang (Rep n (Cls p)) s <-> length s = n /\ forallb p s = true.
Proof.
  induction n as [|n IH]; intros s; simpl.
  - rewrite Lang_Eps_inv. split.
    + now intros ->.
    + intros [H _]. now destruct s.
  - rewrite Lang_Cat_inv. split.
    + intros (s1 & s2 & -> & H1 & H2).
      apply Lang_Cls_inv in H1 as (c & -> & Hp).
      apply IH in H2 as [Hl H2]. simpl. rewrite Hp, H2, Hl. now split.
    + intros [Hl H]. destruct s as [|c s]; [easy|]. simpl in *.
      apply andb_true_iff in H as [Hp H]. exists [c], s.
      split; [easy|]. split; [now constructor|]. apply IH. split; [lia|easy].
Qed.

Lemma Lang_AtLeast_Cls n p s :
  Lang (AtLeast n (Cls p)) s <-> (n <= length s)%nat /\ forallb p s = true.
Proof.
  unfold AtLeast. rewrite Lang_Cat_inv. split.
  - intros (s1 & s2 & -> & H1 & H2).
    apply Lang_Rep_Cls in H1 as [Hl H1]. apply Lang_Star_Cls in H2.
    rewrite length_app, forallb_app, H1, H2. split; [lia|easy].
  - intros [Hl H]. exists (firstn n s), (skipn n s).
    rewrite <- (firstn_skipn n s) in H. rewrite forallb_app in H.
    apply andb_true_iff in H as [H1 H2].
    split; [now rewrite firstn_skipn|]. split.
    + apply Lang_Rep_Cls. split; [|easy]. rewrite length_firstn. lia.
    + now apply Lang_Star_Cls.
Qed.

Lemma before_final_newline_Some l t :
  before_final_newline l = Some t <-> l = t ++ [newline].
Proof.
  unfold before_final_newline. split.
  - intros H. destruct (rev l) as [|c l'] eqn:E; [discriminate|].
    destruct (is_char "010" c) eqn:Hc; [|discriminate].
    injection H as <-. apply Ascii.eqb_eq in Hc. subst c.
    apply (f_equal (@rev ascii)) in E. rewrite rev_involutive in E.
    now rewrite E.
  - intros ->. rewrite rev_app_distr. simpl. now rewrite rev_involutive.
Qed.

Lemma match_to_end_Lang body s :
  match_to_end body s = true <->
  Lang body (chars s) \/ exists t, chars s = t ++ [newline] /\ Lang body t.
Proof.
  unfold match_to_end. rewrite orb_true_iff, matches_Lang. split.
  - intros [H|H]; [now left|right].
    destruct (before_final_newline (chars s)) as [t|] eqn:E; [|discriminate].
    exists t. split; [now apply before_final_newline_Some|now apply matches_Lang].
  - intros [H|(t & E & H)]; [now left|right].
    apply before_final_newline_Some in E. rewrite E. now apply matches_Lang.
Qed.

End ReFacts.

(* ================================================================== *)
(** * The validators *)
(* ================================================================== *)

Section Validators.
Import Re ReFacts.

Lemma email_pattern_Lang s : Lang email_pattern s <-> email_shape s.
Proof.
  unfold email_pattern, email_shape. split.
  - intros H.
    apply Lang_Cat_inv in H as (loc & s1 & -> & Hloc & H).
    apply Lang_Plus_Cls in Hloc as [Hloc1 Hloc2].
    apply Lang_Cat_inv in H as (a & s2 & -> & Ha & H).
    apply Lang_Chr_inv in Ha as ->.
    apply Lang_Cat_inv in H as (dom & s3 & -> & Hdom & H).
    apply Lang_Plus_Cls in Hdom as [Hdom1 Hdom2].
    apply Lang_Cat_inv in H as (dot & tld & -> & Hdot & Htld).
    apply Lang_Chr_inv in Hdot as ->.
    apply Lang_AtLeast_Cls in Htld as [Htld1 Htld2].
    now exists loc, dom, tld.
  - intros (loc & dom & tld & -> & Hloc1 & Hloc2 & Hdom1 & Hdom2 & Htld1 & Htld2).
    apply Lang_Cat_inv. exists loc, ("@"%char :: dom ++ "."%char :: tld).
    split; [easy|]. split; [now apply Lang_Plus_Cls|].
    apply Lang_Cat_inv. exists ["@"%char], (dom ++ "."%char :: tld).
    split; [easy|]. split; [now apply Lang_Chr_inv|].
    apply Lang_Cat_inv. exists dom, ("."%char :: tld).
    split; [easy|]. split; [now apply Lang_Plus_Cls|].
    apply Lang_Cat_inv. exists ["."%char], tld.
    split; [easy|]. split; [now apply Lang_Chr_inv|].
    now apply Lang_AtLeast_Cls.
Qed.

(** A string of the e-mail shape ends in a letter. *)
Lemma email_shape_last s :
  email_shape s -> exists t c, s = t ++ [c] /\ is_letter c = true.
Proof.
  intros (loc & dom & tld & -> & _ & _ & _ & _ & Hlen & Htld).
  destruct (exists_last (l := tld)) as (t & c & ->).
  { intros ->. simpl in Hlen. lia. }
  rewrite forallb_app in Htld. apply andb_true_iff in Htld as [_ Hc].
  simpl in Hc. rewrite andb_true_r in Hc.
  exists (loc ++ "@"%char :: dom ++ "."%char :: t), c. split; [|easy].
  now rewrite <- !app_assoc, <- !app_comm_cons, <- app_assoc.
Qed.

Lemma email_shape_no_final_newline t : ~ email_shape (t ++ [newline]).
Proof.
  intros H. apply email_shape_last in H as (t' & c & E & Hc).
  apply app_inj_tail in E as [_ <-]. discriminate.
Qed.

(** What [validate_email] accepts: the e-mail shape, with or without one
    newline after it. *)
Lemma validate_email_iff (email : string) :
  validate_email email = true <->
  email_shape (chars email)
  \/ exists t, chars email = t ++ [newline] /\ email_shape t.
Proof.
  unfold validate_email. rewrite match_to_end_Lang, email_pattern_Lang.
  split; (intros [H|(t & E & H)]; [now left|right]); exists t;
    (split; [easy|]); now apply email_pattern_Lang.
Qed.

Lemma separated_prefix_Lang s :
  Lang (Opt (Cat (Chr "+") (Cat (Chr "9") (Cat (Chr "1") (Opt (Cls phone_sep))))))
       s
  <-> separated_prefix s.
Proof.
  unfold separated_prefix, country_code. rewrite Lang_Opt_inv. split.
  - intros [H| ->]; [|now left]. right.
    apply Lang_Cat_inv in H as (a & s1 & -> & Ha & H).
    apply Lang_Chr_inv in Ha as ->.
    apply Lang_Cat_inv in H as (b & s2 & -> & Hb & H).
    apply Lang_Chr_inv in Hb as ->.
    apply Lang_Cat_inv in H as (c & s3 & -> & Hc & H).
    apply Lang_Chr_inv in Hc as ->.
    apply Lang_Opt_inv in H as [H| ->]; [right|now left].
    apply Lang_Cls_inv in H as (x & -> & Hx). now exists x.
  - intros [-> |[-> |(x & Hx & ->)]]; [now right|left|left].
    + apply Lang_Cat_inv. exists ["+"%char], ["9"%char; "1"%char].
      split; [easy|]. split; [now apply Lang_Chr_inv|].
      apply Lang_Cat_inv. exists ["9"%char], ["1"%char].
      split; [easy|]. split; [now apply Lang_Chr_inv|].
      apply Lang_Cat_inv. exists ["1"%char], [].
      split; [easy|]. split; [now apply Lang_Chr_inv|].
      apply Lang_Opt_inv. now right.
    + apply Lang_Cat_inv. exists ["+"%char], ["9"%char; "1"%char; x].
      split; [easy|]. split; [now apply Lang_Chr_inv|].
      apply Lang_Cat_inv. exists ["9"%char], ["1"%char; x].
      split; [easy|]. split; [now apply Lang_Chr_inv|].
      apply Lang_Cat_inv. exists ["1"%char], [x].
      split; [easy|]. split; [now apply Lang_Chr_inv|].
      apply Lang_Opt_inv. left. apply Lang_Cls_inv. now exists x.
Qed.

Lemma phone_pattern_Lang s :
  Lang phone_pattern s <-> phone_shape separated_prefix s.
Proof.
  unfold phone_pattern, phone_shape. split.
  - intros H.
    apply Lang_Cat_inv in H as (pre & s1 & -> & Hpre & H).
    apply separated_prefix_Lang in Hpre.
    apply Lang_Cat_inv in H as (a & rest & -> & Ha & Hrest).
    apply Lang_Cls_inv in Ha as (first & -> & Hfirst).
    apply Lang_Rep_Cls in Hrest as [Hlen Hdigits].
    now exists pre, first, rest.
  - intros (pre & first & rest & -> & Hpre & Hfirst & Hlen & Hdigits).
    apply Lang_Cat_inv. exists pre, (first :: rest).
    split; [easy|]. split; [now apply separated_prefix_Lang|].
    apply Lang_Cat_inv. exists [first], rest.
    split; [easy|]. split; [apply Lang_Cls_inv; now exists first|].
    now apply Lang_Rep_Cls.
Qed.

Lemma strip_no_final_newline (s : string) t :
  chars (strip s) <> t ++ [newline].
Proof.
  unfold strip. rewrite chars_of_chars. intros H.
  apply rstrip_last in H. discriminate.
Qed.

End Validators.

(** C6 (the code departs from it): [validate_email] accepts ["a@b.co"] and
    rejects ["bad@"], but it also accepts ["a@b.co\n"], which does not have
    the shape local@domain.tld: [$] in the pattern holds before a newline
    that ends the string. *)
Theorem validate_email_accepts_final_newline :
  validate_email "a@b.co" = true
  /\ validate_email "bad@" = false
  /\ validate_email email_then_newline = true
  /\ ~ email_shape (chars email_then_newline).
Proof.
  repeat split; try reflexivity.
  change (chars email_then_newline) with (chars "a@b.co" ++ [newline]).
  apply email_shape_no_final_newline.
Qed.

(** C7, as the specification words it, fails: ["+91-9876543210"] is
    accepted, and after trimming it is not [+91] followed by ten digits,
    nor ten digits alone. *)
Lemma validate_phone_accepts_separator :
  validate_phone "+91-9876543210" = true
  /\ ~ phone_shape bare_prefix (chars (strip "+91-9876543210")).
Proof.
  split; [reflexivity|].
  intros (pre & first & rest & E & Hpre & _ & Hlen & _).
  apply (f_equal (@length ascii)) in E.
  rewrite length_app in E. simpl in E. rewrite Hlen in E.
  destruct Hpre as [-> | ->]; simpl in E; lia.
Qed.

(** C7, amended, for the texts of this embedding, whose characters all
    lie below code point 256: [validate_phone phone] holds exactly when
    [phone], with the whitespace around it trimmed, is an optional [+91]
    (which one hyphen or one whitespace character may follow) and then ten
    digits [0] to [9] of which the first is 6, 7, 8 or 9. ["9876543210"]
    passes and ["1234567890"] does not. The function is a pure function of
    its argument. (Beyond code point 255 the [\d] of [re] matches the
    decimal digits of other scripts as well; such texts are outside this
    statement.) *)
Theorem validate_phone_iff :
  (forall c : ascii, (code c < 256)%N)
  /\ (forall phone : string,
         validate_phone phone = true
         <-> phone_shape separated_prefix (chars (strip phone)))
  /\ validate_phone "9876543210" = true
  /\ validate_phone "1234567890" = false.
Proof.
  split; [exact N_ascii_bounded|].
  split; [|split; reflexivity].
  intros phone. unfold validate_phone.
  rewrite ReFacts.match_to_end_Lang, phone_pattern_Lang. split.
  - intros [H|(t & E & _)]; [easy|]. now apply strip_no_final_newline in E.
  - now left.
Qed.

(* ================================================================== *)
(** * Pricing *)
(* ================================================================== *)

Lemma base_prices_table (room_type : string) :
  default 2500 (base_prices !! room_type) = table_price room_type.
Proof.
  unfold table_price, base_prices.
  destruct (String.eqb_spec room_type "Standard") as [->|H1]; [reflexivity|].
  destruct (String.eqb_spec room_type "Deluxe") as [->|H2]; [reflexivity|].
  destruct (String.eqb_spec room_type "Suite") as [->|H3]; [reflexivity|].
  destruct (String.eqb_spec room_type "Presidential") as [->|H4]; [reflexivity|].
  simpl. now rewrite !lookup_insert_ne, lookup_empty by congruence.
Qed.

Lemma table_price_bounds (room_type : string) :
  2500 <= table_price room_type <= 15000.
Proof.
  unfold table_price.
  repeat match goal with |- context [String.eqb ?a ?b] => destruct (String.eqb a b) end;
    lia.
Qed.

Lemma calculate_as_formula (room_type : string) (nights guests : Z) :
  calculate_booking_amount room_type nights guests
  = price_formula (table_price room_type) nights guests (discount_for nights).
Proof.
  unfold calculate_booking_amount, price_formula, discount_for.
  now rewrite base_prices_table.
Qed.

Lemma table_price_cases (room_type : string) :
  table_price room_type = 2500 \/ table_price room_type = 4000
  \/ table_price room_type = 7500 \/ table_price room_type = 15000.
Proof.
  unfold table_price.
  repeat match goal with
         | |- context [String.eqb ?a ?b] => destruct (String.eqb a b)
         end; tauto.
Qed.

Lemma year_grid_agrees :
  forallb (fun '(b, n, g) => agrees b n g) year_grid = true.
Proof. vm_compute. reflexivity. Qed.

Lemma calculate_on_year_grid (room_type : string) (nights guests : Z) :
  1 <= nights <= 366 -> 1 <= guests <= 6 ->
  exists total_amount,
    calculate_booking_amount room_type nights guests = Ok total_amount
    /\ py_eq total_amount
             (PyInt (exact_amount (table_price room_type) nights guests))
       = true.
Proof.
  intros Hn Hg. rewrite calculate_as_formula.
  assert (Hin : In (table_price room_type, nights, guests) year_grid).
  { unfold year_grid. apply in_prod; [apply in_prod|].
    - destruct (table_price_cases room_type) as [-> |[-> |[-> | ->]]];
        simpl; tauto.
    - apply in_map_iff. exists (Z.to_nat nights).
      split; [lia|]. apply in_seq. lia.
    - assert (guests = 1 \/ guests = 2 \/ guests = 3 \/ guests = 4
              \/ guests = 5 \/ guests = 6) as H by lia.
      simpl. intuition. }
  pose proof (proj1 (forallb_forall _ _) year_grid_agrees _ Hin) as H.
  simpl in H. unfold agrees in H.
  destruct (price_formula _ _ _ _) as [v|]; [|discriminate]. eauto.
Qed.

(** The exact amount without the division: every price of the table is a
    multiple of 500. *)
Lemma exact_amount_table (room_type : string) (nights guests : Z) :
  exact_amount (table_price room_type) nights guests
  = 5 * (table_price room_type / 500 + Z.max 0 (guests - 2))
    * (nights * percent_kept nights).
Proof.
  unfold exact_amount.
  destruct (table_price_cases room_type) as [-> |[-> |[-> | ->]]];
    match goal with
    | |- (?b * _ + _) * _ / 100 = 5 * (?b / 500 + ?m) * (?n * ?k) =>
        replace ((b * n + m * 500 * n) * k)
          with ((5 * (b / 500 + m) * (n * k)) * 100);
        [apply Z.div_mul; lia|]
    end;
    match goal with
    | |- context [?b / 500] =>
        let q := eval vm_compute in (b / 500) in
        change (b / 500) with q
    end; ring.
Qed.




Lemma float_overflow_above : 2 ^ 64 <= float_overflow.
Proof. apply Z.leb_le. vm_compute. reflexivity. Qed.

Lemma py_float_of_int_small (z : Z) :
  Z.abs z < 2 ^ 64 ->
  py_float_of_int z = Ok (SF2Prim (binary_normalize prec emax z 0 false)).
Proof.
  intros H. unfold py_float_of_int.
  pose proof float_overflow_above as Hf.
  destruct (Z.ltb_spec (Z.abs z) float_overflow) as [_|Hge]; [reflexivity|lia].
Qed.

Lemma py_sub_1_float (x : float) :
  py_sub (PyInt 1) (PyFloat x) = Ok (PyFloat (1 - x)%float).
Proof. reflexivity. Qed.

(** On what the form can hold, the price is computed without error. *)
Lemma calculate_booking_amount_ok (room_type : string) (nights guests : Z) :
  0 <= nights <= 3652058 -> 1 <= guests <= 6 ->
  exists total_amount,
    calculate_booking_amount room_type nights guests = Ok total_amount.
Proof.
  intros Hn Hg. rewrite calculate_as_formula.
  unfold price_formula, discount_for.
  pose proof (table_price_bounds room_type) as Hb.
  set (total := table_price room_type * nights + Z.max 0 (guests - 2) * 500 * nights).
  assert (Ht : Z.abs total < 2 ^ 64).
  { assert (0 <= total <= 17000 * 3652058) by (subst total; nia).
    rewrite Z.abs_eq by lia. change (2 ^ 64) with 18446744073709551616. lia. }
  destruct (7 <=? nights); [|destruct (3 <=? nights)].
  - rewrite py_sub_1_float. cbn [mbind result_bind py_mul py_float].
    rewrite (py_float_of_int_small total Ht). cbn [mbind result_bind]. eauto.
  - rewrite py_sub_1_float. cbn [mbind result_bind py_mul py_float].
    rewrite (py_float_of_int_small total Ht). cbn [mbind result_bind]. eauto.
  - cbn. eauto.
Qed.

(* ================================================================== *)
(** * Runs of the data manager and of the form *)
(* ================================================================== *)

Lemma bind_run {A B} (m : Py A) (k : A -> Py B) w a w' pg :
  m w = mkRun (Ok a) w' pg ->
  (m ≫= k) w = mkRun (outcome (k a w')) (world (k a w')) (pg ++ page (k a w')).
Proof. intros H. unfold mbind, Py_bind. rewrite H. now destruct (k a w'). Qed.

Lemma bind_raise {A B} (m : Py A) (k : A -> Py B) w e w' pg :
  m w = mkRun (Raise e) w' pg ->
  (m ≫= k) w = mkRun (Raise e) w' pg.
Proof. intros H. unfold mbind, Py_bind. now rewrite H. Qed.

Lemma load_data_run {A} (p : path A) (w : World) :
  load_data p w = mkRun (Ok (collection p w)) w (load_page p w).
Proof.
  unfold load_data, collection, load_page, try_except, os_path_exists, open_r,
    json_load, mbind, Py_bind, mret, Py_ret, show, raise.
  destruct (file_at p w) eqn:E; simpl; rewrite ?E; reflexivity.
Qed.

Lemma save_data_run {A} (p : path A) (data : list A) (w : World) :
  save_data p data w
  = match write_failure p w with
    | Some e => mkRun (Ok tt) w [StErrorSaving e]
    | None => mkRun (Ok tt) (put_file p (Holds data) w) []
    end.
Proof.
  unfold save_data, try_except, open_w_dump.
  now destruct (write_failure p w).
Qed.

Lemma for_each_show (errors : list string) (w : World) :
  for_each errors (fun error => show (StError error)) w
  = mkRun (Ok tt) w (map StError errors).
Proof.
  induction errors as [|e errors IH]; [reflexivity|].
  simpl. unfold mbind, Py_bind. simpl. now rewrite IH.
Qed.

Lemma stay_range (f : Form.t) : -3652058 <= stay f <= 3652058.
Proof.
  unfold stay.
  pose proof (bool_decide_unpack _ (date_in_range (Form.check_in f))).
  pose proof (bool_decide_unpack _ (date_in_range (Form.check_out f))).
  lia.
Qed.

Lemma form_price_ok (f : Form.t) :
  0 < stay f ->
  exists total_amount,
    calculate_booking_amount (Form.room_type f) (stay f) (Form.guests f)
    = Ok total_amount.
Proof.
  intros H. pose proof (stay_range f).
  apply calculate_booking_amount_ok; [lia|].
  exact (bool_decide_unpack _ (Form.guests_in_range f)).
Qed.

Lemma show_price_run (f : Form.t) (w : World) :
  show_price f w = mkRun (Ok (locals_after_price f)) w (price_line f).
Proof.
  unfold show_price, locals_after_price, price_line. fold (stay f).
  destruct (truthy (Form.room_type f)); [|reflexivity]. simpl.
  destruct (Z.ltb_spec 0 (stay f)) as [H|H]; [|reflexivity].
  destruct (form_price_ok f H) as [v Hv].
  unfold mbind, Py_bind, lift. now rewrite Hv.
Qed.

Section Submit.
Context (rooms available_rooms : list Room.t) (f : Form.t) (w : World).

Lemma submit_invalid nights total_amount :
  validation_errors f <> [] ->
  submit rooms available_rooms f nights total_amount w
  = mkRun (Ok tt) w (map StError (validation_errors f)).
Proof.
  intros H. unfold submit.
  destruct (validation_errors f) as [|e errors]; [easy|].
  apply for_each_show.
Qed.

Lemma submit_no_room nights total_amount :
  validation_errors f = [] ->
  select_room available_rooms (Form.room_type f) = None ->
  submit rooms available_rooms f nights total_amount w = mkRun (Ok tt) w [].
Proof. intros H1 H2. unfold submit. now rewrite H1, H2. Qed.

Lemma submit_unbound selected_room total_amount :
  validation_errors f = [] ->
  select_room available_rooms (Form.room_type f) = Some selected_room ->
  submit rooms available_rooms f None total_amount w
  = mkRun (Raise (UnboundLocalError "nights")) (after_readings 1 w) [].
Proof. intros H1 H2. unfold submit. now rewrite H1, H2. Qed.

Lemma submit_booked selected_room nights total_amount :
  validation_errors f = [] ->
  select_room available_rooms (Form.room_type f) = Some selected_room ->
  let booking :=
    make_booking f selected_room nights total_amount
                 (clock w (ticks w)) (clock w (S (ticks w))) in
  let customers := collection CUSTOMERS_FILE w in
  let known := known_email (Form.customer_email f) customers in
  submit rooms available_rooms f (Some nights) (Some total_amount) w
  = mkRun (Ok tt)
      (mkWorld
         (saved ROOMS_FILE (map (occupy selected_room) rooms) w)
         (saved BOOKINGS_FILE (collection BOOKINGS_FILE w ++ [booking]) w)
         (if known then customers_json w
          else saved CUSTOMERS_FILE
                 (customers ++ [make_customer f (clock w (S (S (ticks w))))]) w)
         (clock w)
         (if known then 2 + ticks w else 3 + ticks w)%nat
         (write_error w))
      (load_page BOOKINGS_FILE w ++ save_page BOOKINGS_FILE w
       ++ save_page ROOMS_FILE w ++ load_page CUSTOMERS_FILE w
       ++ (if known then [] else save_page CUSTOMERS_FILE w)
       ++ [StSuccess (Booking.booking_id booking); StBalloons]).
Proof.
  intros H1 H2. unfold submit. rewrite H1, H2.
  destruct w as [rj bj cj clk tk we].
  unfold collection, load_page, known_email, saved, save_page, write_failure,
    write_failure_of. simpl.
  unfold mbind, Py_bind, load_data, save_data, try_except, datetime_now, local,
    os_path_exists, open_r, json_load, open_w_dump, write_failure,
    write_failure_of, show, mret, Py_ret, raise.
  simpl.
  destruct bj, rj, cj; simpl;
    repeat (match goal with
            | |- context [match we ?x with _ => _ end] =>
                destruct (we x) eqn:?; simpl
            | |- context [existsb ?p ?l] => destruct (existsb p l); simpl
            end);
    simplify_eq; reflexivity.
Qed.

End Submit.

(* ================================================================== *)
(** * The four checks *)
(* ================================================================== *)

Lemma truthy_false (s : string) : truthy s = false <-> s = "".
Proof. destruct s; simpl; split; congruence. Qed.

Lemma negb_truthy (s : string) : negb (truthy s) = true <-> s = "".
Proof. rewrite negb_true_iff. apply truthy_false. Qed.

Lemma truthy_nonempty (s : string) : truthy s = true <-> s <> "".
Proof. destruct s; simpl; split; congruence. Qed.

Lemma name_check_iff f : name_check f = true <-> name_blank f.
Proof. apply negb_truthy. Qed.

Lemma email_check_iff f : email_check f = true <-> email_bad f.
Proof.
  unfold email_check, email_bad.
  now rewrite orb_true_iff, negb_truthy, negb_true_iff.
Qed.

Lemma phone_check_iff f : phone_check f = true <-> phone_bad f.
Proof.
  unfold phone_check, phone_bad.
  now rewrite orb_true_iff, negb_truthy, negb_true_iff.
Qed.

Lemma dates_check_iff f : dates_check f = true <-> dates_bad f.
Proof. apply Z.leb_le. Qed.

Lemma validation_errors_checks (f : Form.t) :
  validation_errors f
  = (if name_check f then [name_required] else [])
    ++ (if email_check f then [email_required] else [])
    ++ (if phone_check f then [phone_required] else [])
    ++ (if dates_check f then [dates_required] else []).
Proof.
  unfold validation_errors.
  fold (name_check f) (email_check f) (phone_check f) (dates_check f).
  now destruct (name_check f), (email_check f), (phone_check f), (dates_check f).
Qed.

Ltac split_checks f :=
  rewrite validation_errors_checks;
  rewrite <- name_check_iff, <- email_check_iff, <- phone_check_iff,
    <- dates_check_iff;
  unfold name_required, email_required, phone_required, dates_required;
  destruct (name_check f), (email_check f), (phone_check f), (dates_check f);
  simpl.

Lemma validation_errors_In (f : Form.t) :
  (In name_required (validation_errors f) <-> name_blank f)
  /\ (In email_required (validation_errors f) <-> email_bad f)
  /\ (In phone_required (validation_errors f) <-> phone_bad f)
  /\ (In dates_required (validation_errors f) <-> dates_bad f).
Proof. split_checks f; intuition (try discriminate; auto). Qed.

Lemma validation_errors_nil (f : Form.t) :
  validation_errors f = [] <-> valid_request f.
Proof.
  unfold valid_request. split_checks f; intuition (try discriminate; auto).
Qed.

Lemma validation_errors_cons (f : Form.t) :
  validation_errors f <> []
  <-> name_blank f \/ email_bad f \/ phone_bad f \/ dates_bad f.
Proof. split_checks f; intuition (try discriminate; auto). Qed.

Lemma valid_request_stay (f : Form.t) : valid_request f -> 0 < stay f.
Proof.
  intros (_ & _ & _ & H). unfold dates_bad in H. unfold stay. lia.
Qed.

(* ================================================================== *)
(** * Choosing the room *)
(* ================================================================== *)

Lemma bookableb_iff room_type r :
  bookableb room_type r = true <-> bookable room_type r.
Proof.
  unfold bookableb, bookable.
  rewrite andb_true_iff, !bool_decide_eq_true. tauto.
Qed.

Lemma select_room_cons (r : Room.t) (rooms : list Room.t) (room_type : string) :
  select_room (available (r :: rooms)) room_type
  = if bookableb room_type r then Some r
    else select_room (available rooms) room_type.
Proof.
  unfold select_room, available, bookableb. rewrite filter_cons.
  destruct (decide (Room.status r = "Available")) as [Hs|Hs].
  - rewrite (bool_decide_eq_true_2 _ Hs). cbn [andb list_find].
    destruct (decide (Room.room_type r = room_type)) as [Ht|Ht].
    + now rewrite (bool_decide_eq_true_2 _ Ht).
    + rewrite (bool_decide_eq_false_2 _ Ht).
      now destruct (list_find _ _) as [[i x]|].
  - now rewrite (bool_decide_eq_false_2 _ Hs).
Qed.


Lemma select_room_Some (rooms : list Room.t) (room_type : string) sel :
  select_room (available rooms) room_type = Some sel
  <-> exists before after,
        rooms = before ++ sel :: after
        /\ bookable room_type sel
        /\ forall r, In r before -> ~ bookable room_type r.
Proof.
  induction rooms as [|r rooms IH].
  - split; [discriminate|]. intros (before & after & E & _).
    now destruct before.
  - rewrite select_room_cons.
    destruct (bookableb room_type r) eqn:Hb.
    + split.
      * intros [= <-]. exists [], rooms.
        split; [easy|]. split; [now apply bookableb_iff|easy].
      * intros (before & after & E & Hsel & Hfirst).
        destruct before as [|b before]; simpl in E.
        -- now injection E as ->.
        -- injection E as <- _. exfalso.
           apply (Hfirst r); [now left|now apply bookableb_iff].
    + rewrite IH. split.
      * intros (before & after & -> & Hsel & Hfirst).
        exists (r :: before), after. split; [easy|]. split; [easy|].
        intros x [<-|Hx]; [|now apply Hfirst].
        rewrite <- bookableb_iff. congruence.
      * intros (before & after & E & Hsel & Hfirst).
        destruct before as [|b before]; simpl in E.
        -- injection E as -> _. apply bookableb_iff in Hsel. congruence.
        -- injection E as <- ->. exists before, after.
           split; [easy|]. split; [easy|].
           intros x Hx. apply Hfirst. now right.
Qed.


(* ================================================================== *)
(** * The four ways a submission ends *)
(* ================================================================== *)

Section Submission.
Context (rooms : list Room.t) (f : Form.t) (w : World).

Lemma submit_booking_invalid :
  validation_errors f <> [] ->
  submit_booking rooms f w
  = mkRun (Ok tt) w (price_line f ++ map StError (validation_errors f)).
Proof.
  intros H. unfold submit_booking, booking_form.
  rewrite (bind_run _ _ _ _ _ _ (show_price_run f w)).
  destruct (locals_after_price f) as [n t].
  now rewrite submit_invalid.
Qed.

Lemma submit_booking_no_room :
  validation_errors f = [] ->
  select_room (available rooms) (Form.room_type f) = None ->
  submit_booking rooms f w = mkRun (Ok tt) w (price_line f).
Proof.
  intros H1 H2. unfold submit_booking, booking_form.
  rewrite (bind_run _ _ _ _ _ _ (show_price_run f w)).
  destruct (locals_after_price f) as [n t].
  rewrite submit_no_room by easy. simpl. now rewrite app_nil_r.
Qed.

Lemma submit_booking_unbound selected_room :
  validation_errors f = [] ->
  select_room (available rooms) (Form.room_type f) = Some selected_room ->
  Form.room_type f = "" ->
  submit_booking rooms f w
  = mkRun (Raise (UnboundLocalError "nights")) (after_readings 1 w) [].
Proof.
  intros H1 H2 H3. unfold submit_booking, booking_form.
  rewrite (bind_run _ _ _ _ _ _ (show_price_run f w)).
  unfold locals_after_price, price_line. rewrite H3. simpl.
  now rewrite (submit_unbound _ _ _ _ selected_room).
Qed.

Lemma submit_booking_booked selected_room :
  validation_errors f = [] ->
  select_room (available rooms) (Form.room_type f) = Some selected_room ->
  Form.room_type f <> "" ->
  exists total_amount,
    calculate_booking_amount (Form.room_type f) (stay f) (Form.guests f)
    = Ok total_amount
    /\ let known :=
         known_email (Form.customer_email f) (collection CUSTOMERS_FILE w) in
       let booking := booking_of f selected_room total_amount w in
       submit_booking rooms f w
       = mkRun (Ok tt)
           (mkWorld
              (saved ROOMS_FILE (map (occupy selected_room) rooms) w)
              (saved BOOKINGS_FILE (collection BOOKINGS_FILE w ++ [booking]) w)
              (if known then customers_json w
               else saved CUSTOMERS_FILE
                      (collection CUSTOMERS_FILE w ++ [customer_of f w]) w)
              (clock w)
              (if known then 2 + ticks w else 3 + ticks w)%nat
              (write_error w))
           (price_line f ++ load_page BOOKINGS_FILE w
            ++ save_page BOOKINGS_FILE w ++ save_page ROOMS_FILE w
            ++ load_page CUSTOMERS_FILE w
            ++ (if known then [] else save_page CUSTOMERS_FILE w)
            ++ [StSuccess (Booking.booking_id booking); StBalloons]).
Proof.
  intros H1 H2 H3.
  pose proof (valid_request_stay f (proj1 (validation_errors_nil f) H1)) as Hs.
  destruct (form_price_ok f Hs) as [v Hv]. exists v. split; [easy|].
  unfold submit_booking, booking_form.
  rewrite (bind_run _ _ _ _ _ _ (show_price_run f w)).
  unfold locals_after_price. apply truthy_nonempty in H3. rewrite H3, Hv.
  destruct (Z.ltb_spec 0 (stay f)) as [_|Hle]; [|lia].
  now rewrite (submit_booked _ _ _ _ selected_room).
Qed.

End Submission.


Lemma occupy_selected (selected_room : Room.t) :
  occupy selected_room selected_room = occupied selected_room.
Proof. unfold occupy. now rewrite bool_decide_eq_true_2. Qed.

Lemma known_email_iff (email : string) (customers : list Customer.t) :
  known_email email customers = true
  <-> exists c, In c customers /\ Customer.email c = email.
Proof.
  unfold known_email. rewrite existsb_exists.
  split; intros (c & Hc & H); exists c; (split; [easy|]);
    now apply bool_decide_eq_true in H || apply bool_decide_eq_true.
Qed.

Lemma price_line_info (f : Form.t) x :
  In x (price_line f) -> exists total_amount nights, x = StInfoTotal total_amount nights.
Proof.
  unfold price_line.
  destruct (truthy _ && _); [|easy].
  destruct (calculate_booking_amount _ _ _); [|easy].
  intros [<-|[]]. eauto.
Qed.


(* ================================================================== *)
(** * The data store *)
(* ================================================================== *)

(** C9: for every collection, [load_data] raises nothing to its caller
    and leaves the files as they are; it returns the stored list when the
    file holds one, and the empty list when the file is absent, cannot be
    opened, or holds text that [json.load] refuses; in the last two cases
    it shows the error on the page. *)
Theorem load_data_never_raises {A : Type} (file_path : path A) (w : World) :
  exists data,
    outcome (load_data file_path w) = Ok data
    /\ world (load_data file_path w) = w
    /\ match file_at file_path w with
       | Holds stored => data = stored /\ page (load_data file_path w) = []
       | Missing => data = [] /\ page (load_data file_path w) = []
       | Unopenable e | Unparsable e =>
           data = [] /\ page (load_data file_path w) = [StErrorLoading e]
       end.
Proof.
  exists (collection file_path w). rewrite load_data_run. simpl.
  split; [easy|]. split; [easy|].
  unfold collection, load_page. now destruct (file_at file_path w).
Qed.

(* ================================================================== *)
(** * Submitting a booking *)
(* ================================================================== *)

(** C3: when any of the four checks fails, the run ends normally, shows
    (after the price line) one error for every failing check and for no
    other, in the order of the checks, and leaves the world, so the rooms,
    bookings and customers files, exactly as it was. *)
Theorem invalid_request_reports_every_error
    (rooms : list Room.t) (f : Form.t) (w : World) :
  name_blank f \/ email_bad f \/ phone_bad f \/ dates_bad f ->
  outcome (submit_booking rooms f w) = Ok tt
  /\ world (submit_booking rooms f w) = w
  /\ page (submit_booking rooms f w)
     = price_line f ++ map StError (validation_errors f)
  /\ validation_errors f
     = (if name_check f then [name_required] else [])
       ++ (if email_check f then [email_required] else [])
       ++ (if phone_check f then [phone_required] else [])
       ++ (if dates_check f then [dates_required] else [])
  /\ (In name_required (validation_errors f) <-> name_blank f)
  /\ (In email_required (validation_errors f) <-> email_bad f)
  /\ (In phone_required (validation_errors f) <-> phone_bad f)
  /\ (In dates_required (validation_errors f) <-> dates_bad f).
Proof.
  intros H. apply validation_errors_cons in H.
  rewrite (submit_booking_invalid rooms f w H). simpl.
  split; [easy|]. split; [easy|]. split; [easy|].
  split; [apply validation_errors_checks|apply validation_errors_In].
Qed.

Lemma invalid_request_witness :
  (name_blank all_wrong /\ email_bad all_wrong /\ phone_bad all_wrong
   /\ dates_bad all_wrong)
  /\ world (submit_booking default_rooms all_wrong (hotel default_rooms))
     = hotel default_rooms
  /\ page (submit_booking default_rooms all_wrong (hotel default_rooms))
     = [StError name_required; StError email_required;
        StError phone_required; StError dates_required].
Proof.
  assert (H : name_blank all_wrong) by reflexivity.
  split.
  { split; [exact H|]. split; [right; reflexivity|].
    split; [right; reflexivity|]. unfold dates_bad. simpl. lia. }
  destruct (invalid_request_reports_every_error
              default_rooms all_wrong (hotel default_rooms) (or_introl H))
    as (_ & Hw & Hp & _).
  split; [exact Hw|]. rewrite Hp. reflexivity.
Defined.

(** What a submission that passes the checks and finds a room does to the
    three files: each save either replaces the file or, failing, shows its
    error and leaves the file alone; the booking is confirmed either
    way. *)
Lemma booked_effects (rooms : list Room.t) (f : Form.t) (w : World)
    (selected_room : Room.t) :
  validation_errors f = [] ->
  select_room (available rooms) (Form.room_type f) = Some selected_room ->
  Form.room_type f <> "" ->
  exists total_amount,
    calculate_booking_amount (Form.room_type f) (stay f) (Form.guests f)
    = Ok total_amount
    /\ outcome (submit_booking rooms f w) = Ok tt
    /\ In (StSuccess (Booking.booking_id
                        (booking_of f selected_room total_amount w)))
          (page (submit_booking rooms f w))
    /\ match write_failure ROOMS_FILE w with
       | None =>
           rooms_json (world (submit_booking rooms f w))
           = Holds (map (occupy selected_room) rooms)
       | Some e =>
           rooms_json (world (submit_booking rooms f w)) = rooms_json w
           /\ In (StErrorSaving e) (page (submit_booking rooms f w))
       end
    /\ match write_failure BOOKINGS_FILE w with
       | None =>
           bookings_json (world (submit_booking rooms f w))
           = Holds (collection BOOKINGS_FILE w
                    ++ [booking_of f selected_room total_amount w])
       | Some e =>
           bookings_json (world (submit_booking rooms f w)) = bookings_json w
           /\ In (StErrorSaving e) (page (submit_booking rooms f w))
       end
    /\ if known_email (Form.customer_email f) (collection CUSTOMERS_FILE w)
       then customers_json (world (submit_booking rooms f w)) = customers_json w
       else match write_failure CUSTOMERS_FILE w with
            | None =>
                customers_json (world (submit_booking rooms f w))
                = Holds (collection CUSTOMERS_FILE w ++ [customer_of f w])
            | Some e =>
                customers_json (world (submit_booking rooms f w))
                = customers_json w
                /\ In (StErrorSaving e) (page (submit_booking rooms f w))
            end.
Proof.
  intros Hv Hsel Ht.
  destruct (submit_booking_booked rooms f w selected_room Hv Hsel Ht)
    as (v & Hprice & Hrun).
  exists v. cbv zeta in Hrun. rewrite Hrun. clear Hrun.
  cbn [outcome world page rooms_json bookings_json customers_json].
  split; [easy|]. split; [easy|]. split.
  { rewrite !in_app_iff. simpl. tauto. }
  unfold saved, save_page.
  split; [|split].
  - destruct (write_failure ROOMS_FILE w); [|easy]. split; [easy|].
    rewrite !in_app_iff. simpl. tauto.
  - destruct (write_failure BOOKINGS_FILE w); [|easy]. split; [easy|].
    rewrite !in_app_iff. simpl. tauto.
  - destruct (known_email _ _); [easy|].
    destruct (write_failure CUSTOMERS_FILE w); [|easy]. split; [easy|].
    rewrite !in_app_iff. simpl. tauto.
Qed.


Lemma collection_same {A} (p : path A) (w w' : World) :
  file_at p w' = file_at p w -> collection p w' = collection p w.
Proof. unfold collection. now intros ->. Qed.











(** C4 (the code departs from it): two bookings confirmed one after the
    other, while the clock stays within one second, carry the same
    [booking_id], although the clock was read at different instants and the
    two bookings differ. *)
Theorem booking_ids_collide_within_a_second :
  booked first_run /\ booked second_run
  /\ exists b1 b2,
       collection BOOKINGS_FILE (world second_run) = [b1; b2]
       /\ Booking.booking_id b1 = "BK20241101090507"
       /\ Booking.booking_id b2 = "BK20241101090507"
       /\ Booking.customer_name b1 = "Asha Rao"
       /\ Booking.customer_name b2 = "Ravi Nair"
       /\ Booking.room_number b1 = "201"
       /\ Booking.room_number b2 = "301"
       /\ clock (world first_run) (ticks (hotel default_rooms))
          <> clock (world first_run) (ticks (world first_run)).
Proof.
  split; [exists "BK20241101090507"; vm_compute; tauto|].
  split; [exists "BK20241101090507"; vm_compute; tauto|].
  eexists. eexists. split; [vm_compute; reflexivity|].
  repeat split. vm_compute. discriminate.
Qed.

Lemma date_add_days_1 (d : date) :
  if bool_decide (toordinal d = date_max_ordinal)
  then date_add_days d 1 = Raise OverflowError
  else exists d', date_add_days d 1 = Ok d'.
Proof.
  pose proof (bool_decide_unpack _ (date_in_range d)) as Hd.
  unfold date_add_days, fromordinal, date_max_ordinal.
  destruct (decide (Is_true (bool_decide (1 <= toordinal d + 1 <= 3652059))))
    as [H|H].
  - pose proof (bool_decide_unpack _ H) as H'.
    rewrite bool_decide_eq_false_2 by lia. eauto.
  - rewrite bool_decide_eq_true_2; [easy|].
    destruct (decide (toordinal d = 3652059)) as [E|E]; [easy|].
    exfalso. apply H. apply bool_decide_pack. lia.
Qed.

(** The whole page: it stops at once when no room is Available; else it
    stops on [check_in + timedelta(days=1)] when [check_in] is
    [date.max], and else runs the form over the rooms as loaded. *)
Lemma booking_system_run (f : Form.t) (submitted : bool) (w : World) :
  booking_system f submitted w
  = match available (collection ROOMS_FILE w) with
    | [] => mkRun (Ok tt) w
              (load_page ROOMS_FILE w
               ++ [StError "No rooms available for booking!"])
    | _ :: _ =>
        if bool_decide (toordinal (Form.check_in f) = date_max_ordinal)
        then mkRun (Raise OverflowError) w (load_page ROOMS_FILE w)
        else
          let r := booking_form (collection ROOMS_FILE w)
                                (available (collection ROOMS_FILE w)) f submitted w in
          mkRun (outcome r) (world r) (load_page ROOMS_FILE w ++ page r)
    end.
Proof.
  unfold booking_system.
  rewrite (bind_run _ _ _ _ _ _ (load_data_run ROOMS_FILE w)).
  destruct (available (collection ROOMS_FILE w)) as [|a l]; [easy|].
  pose proof (date_add_days_1 (Form.check_in f)) as Hd.
  destruct (bool_decide (toordinal (Form.check_in f) = date_max_ordinal)).
  - unfold mbind, Py_bind, lift. rewrite Hd. simpl. now rewrite app_nil_r.
  - destruct Hd as [d' Hd]. unfold mbind, Py_bind, lift. rewrite Hd.
    now destruct (booking_form _ _ _ _ _).
Qed.

(* ================================================================== *)
(** * Further properties *)
(* ================================================================== *)

(** X1: [validate_email email] holds exactly when [email] has the shape
    local@domain.tld, or is a string of that shape followed by one
    newline. *)
Theorem validate_email_shape_or_newline (email : string) :
  validate_email email = true <->
  email_shape (chars email)
  \/ exists t, chars email = t ++ [newline] /\ email_shape t.
Proof. exact (validate_email_iff email). Qed.

(** X2: for stays of up to 366 nights and 1 to 6 guests, the amount the code
    computes with floats is the exact amount
    [(base_price * nights + max(0, guests - 2) * 500 * nights) * (1 - discount)],
    a whole number of rupees. *)
Theorem price_exact_within_a_year (room_type : string) (nights guests : Z) :
  1 <= nights <= 366 -> 1 <= guests <= 6 ->
  exists total_amount,
    calculate_booking_amount room_type nights guests = Ok total_amount
    /\ py_eq total_amount
             (PyInt (exact_amount (table_price room_type) nights guests))
       = true.
Proof.
  intros Hn Hg. rewrite calculate_as_formula.
  assert (Hin : In (table_price room_type, nights, guests) year_grid).
  { unfold year_grid. apply in_prod; [apply in_prod|].
    - unfold table_price.
      repeat match goal with
             | |- context [String.eqb ?a ?b] => destruct (String.eqb a b)
             end; simpl; tauto.
    - apply in_map_iff. exists (Z.to_nat nights).
      split; [lia|]. apply in_seq. lia.
    - assert (guests = 1 \/ guests = 2 \/ guests = 3 \/ guests = 4
              \/ guests = 5 \/ guests = 6) as H by lia.
      simpl. intuition. }
  pose proof (proj1 (forallb_forall _ _) year_grid_agrees _ Hin) as H.
  simpl in H. unfold agrees in H.
  destruct (price_formula _ _ _ _) as [v|]; [|discriminate]. eauto.
Qed.

Lemma price_exact_witness :
  exists total_amount,
    calculate_booking_amount "Suite" 7 4 = Ok total_amount
    /\ py_eq total_amount (PyInt 50575) = true.
Proof.
  apply (price_exact_within_a_year "Suite" 7 4); lia.
Defined.

(** X3: the price line never raises: for every form, [show_price] ends
    normally and leaves the world as it was. *)
Theorem show_price_never_raises (f : Form.t) (w : World) :
  show_price f w = mkRun (Ok (locals_after_price f)) w (price_line f).
Proof. exact (show_price_run f w). Qed.

(** X5: the room chosen is the first room of the snapshot that has the
    requested type and status Available. *)
Theorem select_room_is_first (rooms : list Room.t) (room_type : string)
    (selected_room : Room.t) :
  select_room (available rooms) room_type = Some selected_room
  <-> exists before after,
        rooms = before ++ selected_room :: after
        /\ bookable room_type selected_room
        /\ forall r, In r before -> ~ bookable room_type r.
Proof. exact (select_room_Some rooms room_type selected_room). Qed.

Lemma load_page_not_success {A} (p : path A) (w : World) booking_id :
  ~ In (StSuccess booking_id) (load_page p w).
Proof.
  unfold load_page. destruct (file_at p w); simpl; intuition discriminate.
Qed.

(* ================================================================== *)
(** * Room management: the loop of "Update Status" *)
(* ================================================================== *)

Lemma set_status_identity (n s : string) (rooms : list Room.t) :
  map room_identity (set_status n s rooms) = map room_identity rooms.
Proof.
  induction rooms as [|r rooms IH]; [easy|]. simpl.
  destruct (bool_decide (Room.room_number r = n)); simpl; [easy|].
  now rewrite IH.
Qed.

Lemma status_of_None (n : string) (rooms : list Room.t) :
  status_of n rooms = None <-> forall r, In r rooms -> Room.room_number r <> n.
Proof.
  induction rooms as [|r rooms IH]; simpl; [easy|].
  destruct (decide (Room.room_number r = n)) as [E|E].
  - rewrite (bool_decide_eq_true_2 _ E). split; [discriminate|].
    intros H. exfalso. apply (H r); [now left|easy].
  - rewrite (bool_decide_eq_false_2 _ E), IH. split.
    + intros H x [<-|Hx]; [easy|now apply H].
    + intros H x Hx. apply H. now right.
Qed.

Lemma set_status_absent (n s : string) (rooms : list Room.t) :
  status_of n rooms = None -> set_status n s rooms = rooms.
Proof.
  induction rooms as [|r rooms IH]; simpl; [easy|].
  destruct (bool_decide (Room.room_number r = n)); [discriminate|].
  intros H. now rewrite IH.
Qed.

Lemma set_status_first (n s : string) (rooms : list Room.t) (old : string) :
  status_of n rooms = Some old ->
  exists before room after,
    rooms = before ++ room :: after
    /\ Room.room_number room = n
    /\ Room.status room = old
    /\ (forall r, In r before -> Room.room_number r <> n)
    /\ set_status n s rooms
       = before
         ++ Room.mk (Room.room_number room) (Room.room_type room)
                    (Room.price room) (Room.capacity room) s
         :: after.
Proof.
  induction rooms as [|r rooms IH]; simpl; [discriminate|].
  destruct (decide (Room.room_number r = n)) as [E|E].
  - rewrite (bool_decide_eq_true_2 _ E). intros [= <-].
    now exists [], r, rooms.
  - rewrite (bool_decide_eq_false_2 _ E). intros H.
    destruct (IH H) as (before & room & after & -> & Hn & Ho & Hb & Hs).
    exists (r :: before), room, after. rewrite Hs.
    repeat split; try easy. intros x [<-|Hx]; [easy|now apply Hb].
Qed.

Lemma status_of_set_status (n s m : string) (rooms : list Room.t) :
  status_of m (set_status n s rooms)
  = if bool_decide (m = n)
    then match status_of n rooms with Some _ => Some s | None => None end
    else status_of m rooms.
Proof.
  induction rooms as [|r rooms IH]; simpl.
  - now destruct (bool_decide (m = n)).
  - destruct (decide (Room.room_number r = n)) as [E|E].
    + rewrite (bool_decide_eq_true_2 _ E). simpl.
      destruct (decide (m = n)) as [-> |Hm].
      * now rewrite (bool_decide_eq_true_2 _ E), bool_decide_eq_true_2.
      * rewrite (bool_decide_eq_false_2 (m = n)) by easy.
        now rewrite !(bool_decide_eq_false_2 (Room.room_number r = m)) by congruence.
    + rewrite (bool_decide_eq_false_2 _ E). simpl. rewrite IH.
      destruct (decide (m = n)) as [-> |Hm].
      * now rewrite (bool_decide_eq_false_2 _ E), bool_decide_eq_true_2.
      * rewrite (bool_decide_eq_false_2 (m = n)) by easy.
        now destruct (bool_decide (Room.room_number r = m)).
Qed.

Lemma set_status_again (n s1 s2 : string) (rooms : list Room.t) :
  set_status n s2 (set_status n s1 rooms) = set_status n s2 rooms.
Proof.
  induction rooms as [|r rooms IH]; simpl; [easy|].
  destruct (decide (Room.room_number r = n)) as [E|E].
  - rewrite (bool_decide_eq_true_2 _ E). simpl.
    now rewrite (bool_decide_eq_true_2 _ E).
  - rewrite (bool_decide_eq_false_2 _ E). simpl.
    now rewrite (bool_decide_eq_false_2 _ E), IH.
Qed.

Lemma set_status_same (n s : string) (rooms : list Room.t) :
  status_of n rooms = Some s -> set_status n s rooms = rooms.
Proof.
  induction rooms as [|r rooms IH]; simpl; [easy|].
  destruct (bool_decide (Room.room_number r = n)).
  - intros [= <-]. now destruct r.
  - intros H. now rewrite IH.
Qed.

Lemma set_status_commute (n m s t : string) (rooms : list Room.t) :
  n <> m ->
  set_status n s (set_status m t rooms) = set_status m t (set_status n s rooms).
Proof.
  intros Hnm. induction rooms as [|r rooms IH]; simpl; [easy|].
  destruct (decide (Room.room_number r = m)) as [Em|Em];
    destruct (decide (Room.room_number r = n)) as [En|En]; [congruence| | |].
  - rewrite (bool_decide_eq_true_2 _ Em), (bool_decide_eq_false_2 _ En). simpl.
    now rewrite (bool_decide_eq_true_2 _ Em), (bool_decide_eq_false_2 _ En).
  - rewrite (bool_decide_eq_false_2 _ Em), (bool_decide_eq_true_2 _ En). simpl.
    now rewrite (bool_decide_eq_false_2 _ Em), (bool_decide_eq_true_2 _ En).
  - rewrite (bool_decide_eq_false_2 _ Em), (bool_decide_eq_false_2 _ En). simpl.
    now rewrite (bool_decide_eq_false_2 _ Em), (bool_decide_eq_false_2 _ En), IH.
Qed.

Lemma occupy_other_rooms (selected_room : Room.t) (rooms : list Room.t) :
  (forall r, In r rooms -> Room.room_number r <> Room.room_number selected_room) ->
  map (occupy selected_room) rooms = rooms.
Proof.
  induction rooms as [|r rooms IH]; simpl; [easy|]. intros H.
  unfold occupy at 1. rewrite bool_decide_eq_false_2 by (apply H; now left).
  rewrite IH; [easy|]. intros x Hx. apply H. now right.
Qed.

(** With room numbers that are all different, the loop of the booking
    page and the loop of "Update Status" mark the same room. *)
Lemma occupy_set_status (selected_room : Room.t) (rooms : list Room.t) :
  NoDup (map Room.room_number rooms) ->
  map (occupy selected_room) rooms
  = set_status (Room.room_number selected_room) "Occupied" rooms.
Proof.
  induction rooms as [|r rooms IH]; simpl; [easy|].
  intros Hnd. apply NoDup_cons in Hnd as [Hr Hnd].
  rewrite list_elem_of_In in Hr. unfold occupy at 1.
  destruct (decide (Room.room_number r = Room.room_number selected_room)) as [E|E].
  - rewrite (bool_decide_eq_true_2 _ E). f_equal.
    apply occupy_other_rooms. intros x Hx Hn. apply Hr.
    rewrite E, <- Hn. now apply in_map.
  - rewrite (bool_decide_eq_false_2 _ E). f_equal. now apply IH.
Qed.

Lemma update_room_status_run (n s : string) (w : World) :
  update_room_status n s w
  = match write_failure ROOMS_FILE w with
    | Some e =>
        mkRun (Ok tt) w
          (load_page ROOMS_FILE w ++ load_page BOOKINGS_FILE w
           ++ [StErrorSaving e])
    | None =>
        mkRun (Ok tt)
          (mkWorld (Holds (set_status n s (collection ROOMS_FILE w)))
                   (bookings_json w) (customers_json w) (clock w) (ticks w)
                   (write_error w))
          (load_page ROOMS_FILE w ++ load_page BOOKINGS_FILE w)
    end.
Proof.
  unfold update_room_status.
  rewrite (bind_run _ _ _ _ _ _ (load_data_run ROOMS_FILE w)).
  rewrite (bind_run _ _ _ _ _ _ (load_data_run BOOKINGS_FILE w)).
  rewrite save_data_run.
  destruct (write_failure ROOMS_FILE w); simpl; [easy|now rewrite app_nil_r].
Qed.

(* ================================================================== *)
(** * Files that can and cannot be written *)
(* ================================================================== *)

Lemma write_failure_None {A} (p : path A) (w : World) :
  write_failure p w = None -> write_error w (path_name p) = None.
Proof.
  unfold write_failure, write_failure_of. now destruct (file_at p w).
Qed.

(** A save does not change whether the file can be written. *)
Lemma write_failure_saved {A} (p : path A) (data : list A) (w w' : World) :
  file_at p w' = saved p data w ->
  write_error w' = write_error w ->
  write_failure p w' = write_failure p w.
Proof.
  intros Hf He. unfold write_failure at 1. rewrite Hf, He. unfold saved.
  destruct (write_failure p w) eqn:E; [exact E|].
  exact (write_failure_None p w E).
Qed.

Lemma collection_saved {A} (p : path A) (data : list A) (w w' : World) :
  file_at p w' = saved p data w ->
  collection p w'
  = match write_failure p w with
    | None => data
    | Some _ => collection p w
    end.
Proof.
  unfold collection, saved. intros ->. now destruct (write_failure p w).
Qed.

(* ================================================================== *)
(** * The ways a run of the booking page ends *)
(* ================================================================== *)

Lemma booking_form_unsubmitted (rooms available_rooms : list Room.t)
    (f : Form.t) (w : World) :
  booking_form rooms available_rooms f false w = mkRun (Ok tt) w (price_line f).
Proof.
  unfold booking_form.
  rewrite (bind_run _ _ _ _ _ _ (show_price_run f w)).
  destruct (locals_after_price f). simpl. now rewrite app_nil_r.
Qed.

Lemma not_success_app booking_id (l1 l2 : list shown) :
  ~ In (StSuccess booking_id) l1 -> ~ In (StSuccess booking_id) l2 ->
  ~ In (StSuccess booking_id) (l1 ++ l2).
Proof. intros H1 H2 H. apply in_app_or in H. tauto. Qed.

Lemma price_line_not_success (f : Form.t) booking_id :
  ~ In (StSuccess booking_id) (price_line f).
Proof. intros H. apply price_line_info in H as (t & n & [=]). Qed.

Lemma errors_not_success (errors : list string) booking_id :
  ~ In (StSuccess booking_id) (map StError errors).
Proof. intros H. apply in_map_iff in H as (x & [=] & _). Qed.

(** With rooms on offer and a check-in date before [date.max], a
    submitted page is the form run over the rooms as loaded. *)
Lemma page_run_form (f : Form.t) (w : World) :
  available (collection ROOMS_FILE w) <> [] ->
  toordinal (Form.check_in f) <> date_max_ordinal ->
  booking_system f true w
  = mkRun (outcome (submit_booking (collection ROOMS_FILE w) f w))
          (world (submit_booking (collection ROOMS_FILE w) f w))
          (load_page ROOMS_FILE w
           ++ page (submit_booking (collection ROOMS_FILE w) f w)).
Proof.
  intros Ha Hd. rewrite booking_system_run.
  destruct (available (collection ROOMS_FILE w)) as [|a l] eqn:E; [easy|].
  rewrite (bool_decide_eq_false_2 _ Hd). rewrite <- E. reflexivity.
Qed.

(** A run of the booking page ends in one of four ways: nothing is
    written; or it stops on [check_in + timedelta(days=1)]; or it stops on
    the unassigned [nights]; or a booking is confirmed by the form. *)
Lemma booking_system_cases (f : Form.t) (submitted : bool) (w : World) :
  (outcome (booking_system f submitted w) = Ok tt
   /\ world (booking_system f submitted w) = w
   /\ ~ booked (booking_system f submitted w))
  \/ (toordinal (Form.check_in f) = date_max_ordinal
      /\ available (collection ROOMS_FILE w) <> []
      /\ booking_system f submitted w
         = mkRun (Raise OverflowError) w (load_page ROOMS_FILE w)
      /\ ~ booked (booking_system f submitted w))
  \/ (submitted = true /\ Form.room_type f = ""
      /\ outcome (booking_system f submitted w) = Raise (UnboundLocalError "nights")
      /\ world (booking_system f submitted w) = after_readings 1 w
      /\ ~ booked (booking_system f submitted w))
  \/ (submitted = true /\ Form.room_type f <> ""
      /\ toordinal (Form.check_in f) <> date_max_ordinal
      /\ available (collection ROOMS_FILE w) <> []
      /\ validation_errors f = []
      /\ exists selected_room,
           select_room (available (collection ROOMS_FILE w)) (Form.room_type f)
           = Some selected_room).
Proof.
  rewrite booking_system_run.
  destruct (available (collection ROOMS_FILE w)) as [|a l] eqn:E.
  - left. simpl. split; [easy|]. split; [easy|]. intros (id & H).
    apply in_app_or in H as [H|[H|[]]]; [|discriminate].
    now apply load_page_not_success in H.
  - destruct (decide (toordinal (Form.check_in f) = date_max_ordinal)) as [Hd|Hd].
    { rewrite (bool_decide_eq_true_2 _ Hd). right. left.
      split; [easy|]. split; [easy|]. split; [easy|]. intros (id & H).
      now apply load_page_not_success in H. }
    rewrite (bool_decide_eq_false_2 _ Hd). rewrite <- E. cbv zeta.
    destruct submitted.
    + fold (submit_booking (collection ROOMS_FILE w) f).
      destruct (validation_errors f) as [|e errors] eqn:Hv.
      * destruct (select_room (available (collection ROOMS_FILE w))
                              (Form.room_type f)) as [sel|] eqn:Hs.
        -- destruct (string_dec (Form.room_type f) "") as [Ht|Ht].
           ++ right. right. left.
              rewrite (submit_booking_unbound _ f w sel Hv Hs Ht). simpl.
              repeat split; try easy. intros (id & H). simpl in H.
              rewrite app_nil_r in H. now apply load_page_not_success in H.
           ++ right. right. right.
              split; [easy|]. split; [easy|]. split; [easy|].
              split; [now rewrite E|]. split; [easy|]. now exists sel.
        -- left. rewrite (submit_booking_no_room _ f w Hv Hs). simpl.
           split; [easy|]. split; [easy|]. intros (id & H).
           revert H. apply not_success_app;
             [apply load_page_not_success|apply price_line_not_success].
      * left. rewrite submit_booking_invalid by (rewrite Hv; easy). simpl.
        split; [easy|]. split; [easy|]. intros (id & H).
        revert H. apply not_success_app; [apply load_page_not_success|].
        apply not_success_app;
          [apply price_line_not_success|apply errors_not_success].
    + left. rewrite booking_form_unsubmitted. simpl.
      split; [easy|]. split; [easy|]. intros (id & H).
      revert H. apply not_success_app;
        [apply load_page_not_success|apply price_line_not_success].
Qed.

Lemma occupy_keeps_occupied (selected_room r : Room.t) :
  Room.status r = "Occupied" ->
  Room.status (occupy selected_room r) = "Occupied".
Proof. intros H. unfold occupy. now destruct (bool_decide _). Qed.

Lemma occupy_number (selected_room r : Room.t) :
  Room.room_number (occupy selected_room r) = Room.room_number r.
Proof. unfold occupy. now destruct (bool_decide _). Qed.

Lemma occupy_identity (selected_room : Room.t) (rooms : list Room.t) :
  map room_identity (map (occupy selected_room) rooms) = map room_identity rooms.
Proof.
  rewrite map_map. apply map_ext. intros r. unfold occupy.
  now destruct (bool_decide _).
Qed.

Lemma available_In (rooms : list Room.t) (r : Room.t) :
  In r (available rooms) <-> In r rooms /\ Room.status r = "Available".
Proof.
  unfold available. rewrite <- !list_elem_of_In, list_elem_of_filter. tauto.
Qed.

(** No room that has the number of the chosen room is on offer once the
    rooms are written. *)
Lemma booked_number_not_available (selected_room : Room.t)
    (rooms : list Room.t) (r : Room.t) :
  In r (available (map (occupy selected_room) rooms)) ->
  Room.room_number r <> Room.room_number selected_room.
Proof.
  intros H. apply available_In in H as [H Hs].
  apply in_map_iff in H as (r0 & <- & _). intros Hn.
  rewrite occupy_number in Hn. unfold occupy in Hs.
  rewrite (bool_decide_eq_true_2 _ Hn) in Hs. discriminate.
Qed.

Lemma select_room_In (rooms : list Room.t) (room_type : string) (sel : Room.t) :
  select_room rooms room_type = Some sel -> In sel rooms.
Proof.
  unfold select_room.
  destruct (list_find _ _) as [[i x]|] eqn:E; [|discriminate].
  intros [= <-]. apply list_find_Some in E as (E & _).
  apply list_elem_of_In. eapply list_elem_of_lookup_2. exact E.
Qed.

(** A confirmed run of the page, spelled out: the room it chose, and the
    three files and the page after it. *)
Lemma booked_world (f : Form.t) (submitted : bool) (w : World) :
  booked (booking_system f submitted w) ->
  exists selected_room total_amount,
    submitted = true
    /\ select_room (available (collection ROOMS_FILE w)) (Form.room_type f)
       = Some selected_room
    /\ In selected_room (collection ROOMS_FILE w)
    /\ Room.status selected_room = "Available"
    /\ outcome (booking_system f submitted w) = Ok tt
    /\ rooms_json (world (booking_system f submitted w))
       = saved ROOMS_FILE
           (map (occupy selected_room) (collection ROOMS_FILE w)) w
    /\ bookings_json (world (booking_system f submitted w))
       = saved BOOKINGS_FILE
           (collection BOOKINGS_FILE w
            ++ [booking_of f selected_room total_amount w]) w
    /\ customers_json (world (booking_system f submitted w))
       = (if known_email (Form.customer_email f) (collection CUSTOMERS_FILE w)
          then customers_json w
          else saved CUSTOMERS_FILE
                 (collection CUSTOMERS_FILE w ++ [customer_of f w]) w)
    /\ write_error (world (booking_system f submitted w)) = write_error w
    /\ page (booking_system f submitted w)
       = load_page ROOMS_FILE w ++ price_line f
         ++ load_page BOOKINGS_FILE w ++ save_page BOOKINGS_FILE w
         ++ save_page ROOMS_FILE w ++ load_page CUSTOMERS_FILE w
         ++ (if known_email (Form.customer_email f)
                            (collection CUSTOMERS_FILE w)
             then [] else save_page CUSTOMERS_FILE w)
         ++ [StSuccess (Booking.booking_id
                          (booking_of f selected_room total_amount w));
             StBalloons].
Proof.
  intros Hb.
  destruct (booking_system_cases f submitted w)
    as [(_ & _ & Hn)|[(_ & _ & _ & Hn)|[(_ & _ & _ & _ & Hn)
       |(-> & Ht & Hd & Ha & Hv & sel & Hs)]]];
    [easy|easy|easy|].
  rewrite (page_run_form f w Ha Hd).
  destruct (submit_booking_booked _ f w sel Hv Hs Ht) as (v & _ & Hrun).
  cbv zeta in Hrun. rewrite Hrun.
  exists sel, v. split; [easy|]. split; [easy|].
  pose proof (select_room_In _ _ _ Hs) as Hin.
  apply available_In in Hin as [Hin Hst].
  now repeat split.
Qed.

(* ================================================================== *)
(** * Asking for a room *)
(* ================================================================== *)




(* ================================================================== *)
(** * Further properties of the booking page *)
(* ================================================================== *)



(** X8: with a room type that is not the empty string and a check-in
    date before [date.max], a run of the booking page, submitted or not,
    ends normally, whatever the three files hold and whether or not they
    can be read and written. With rooms on offer and [date.max] as the
    check-in date it stops on [check_in + timedelta(days=1)] with
    [OverflowError], before the form is submitted, and changes nothing. *)
Theorem booking_page_ends_normally (f : Form.t) (submitted : bool) (w : World) :
  (Form.room_type f <> "" ->
   toordinal (Form.check_in f) <> date_max_ordinal ->
   outcome (booking_system f submitted w) = Ok tt)
  /\ (available (collection ROOMS_FILE w) <> [] ->
      toordinal (Form.check_in f) = date_max_ordinal ->
      booking_system f submitted w
      = mkRun (Raise OverflowError) w (load_page ROOMS_FILE w)).
Proof.
  split.
  - intros Ht Hd.
    destruct (booking_system_cases f submitted w)
      as [(H & _)|[(H & _)|[(_ & H & _)|(-> & _ & _ & Ha & Hv & sel & Hs)]]];
      [easy|easy|easy|].
    rewrite (page_run_form f w Ha Hd). cbn [outcome].
    now destruct (booked_effects _ f w sel Hv Hs Ht) as (v & _ & Ho & _).
  - intros Ha Hd. rewrite booking_system_run.
    destruct (available (collection ROOMS_FILE w)); [easy|].
    now rewrite (bool_decide_eq_true_2 _ Hd).
Qed.

Lemma unconfirmed_same_files (f : Form.t) (submitted : bool) (w : World) :
  ~ booked (booking_system f submitted w) ->
  same_files w (world (booking_system f submitted w)).
Proof.
  intros Hnb.
  destruct (booking_system_cases f submitted w)
    as [(_ & Hw & _)|[(_ & _ & Hw & _)|[(_ & _ & _ & Hw & _)
       |(-> & Ht & Hd & Ha & Hv & sel & Hs)]]].
  - rewrite Hw. now repeat split.
  - rewrite Hw. now repeat split.
  - rewrite Hw. now repeat split.
  - exfalso. apply Hnb. rewrite (page_run_form f w Ha Hd).
    destruct (booked_effects _ f w sel Hv Hs Ht) as (v & _ & _ & Hp & _).
    eexists. cbn [page]. apply in_or_app. right. exact Hp.
Qed.

(** X9: the booking page writes to no file unless it confirms a booking:
    a run that is not submitted, that fails a check, that finds no room or
    that stops leaves the rooms, bookings and customers files as they
    were. *)
Theorem booking_page_writes_only_when_it_confirms
    (f : Form.t) (submitted : bool) (w : World) :
  ~ booked (booking_system f submitted w) ->
  same_files w (world (booking_system f submitted w)).
Proof. exact (unconfirmed_same_files f submitted w). Qed.

Lemma booking_page_writes_witness :
  ~ booked (booking_system all_wrong true (hotel default_rooms))
  /\ same_files (hotel default_rooms)
       (world (booking_system all_wrong true (hotel default_rooms))).
Proof.
  assert (H : ~ booked (booking_system all_wrong true (hotel default_rooms))).
  { intros (id & H). vm_compute in H. intuition discriminate. }
  split; [exact H|].
  exact (booking_page_writes_only_when_it_confirms _ _ _ H).
Defined.

(** X10: when the rooms file and the bookings file can be written, two
    bookings confirmed by two runs of the booking page, the second on the
    files the first left, are never for the same room number; the bookings
    file then holds the earlier bookings and the two new ones, in that
    order. *)
Theorem no_room_is_booked_twice_in_a_row
    (f1 f2 : Form.t) (w : World) :
  write_failure ROOMS_FILE w = None ->
  write_failure BOOKINGS_FILE w = None ->
  booked (booking_system f1 true w) ->
  booked (booking_system f2 true (world (booking_system f1 true w))) ->
  exists b1 b2,
    collection BOOKINGS_FILE
      (world (booking_system f2 true (world (booking_system f1 true w))))
    = collection BOOKINGS_FILE w ++ [b1; b2]
    /\ Booking.room_number b1 <> Booking.room_number b2.
Proof.
  intros Hwr Hwb H1 H2.
  destruct (booked_world f1 true w H1)
    as (sel1 & v1 & _ & _ & _ & _ & _ & Hr1 & Hb1 & _ & He1 & _).
  set (w1 := world (booking_system f1 true w)) in *.
  destruct (booked_world f2 true w1 H2)
    as (sel2 & v2 & _ & Hs2 & _ & _ & _ & _ & Hb2 & _).
  exists (booking_of f1 sel1 v1 w), (booking_of f2 sel2 v2 w1).
  rewrite (collection_saved BOOKINGS_FILE _ _ _ Hb2).
  rewrite (write_failure_saved BOOKINGS_FILE _ _ _ Hb1 He1), Hwb.
  rewrite (collection_saved BOOKINGS_FILE _ _ _ Hb1), Hwb.
  split; [now rewrite <- app_assoc|].
  rewrite (collection_saved ROOMS_FILE _ _ _ Hr1), Hwr in Hs2.
  apply select_room_In, booked_number_not_available in Hs2.
  simpl. congruence.
Qed.

Lemma no_room_twice_witness :
  exists b1 b2,
    collection BOOKINGS_FILE
      (world (booking_system asha true
                (world (booking_system asha true (hotel default_rooms)))))
    = [] ++ [b1; b2]
    /\ Booking.room_number b1 <> Booking.room_number b2.
Proof.
  apply (no_room_is_booked_twice_in_a_row asha asha (hotel default_rooms)).
  - reflexivity.
  - reflexivity.
  - exists "BK20241101090507". vm_compute. tauto.
  - exists "BK20241101090507". vm_compute. tauto.
Defined.

(* ================================================================== *)
(** * What every visit keeps *)
(* ================================================================== *)

Lemma initialize_rooms_run (w : World) :
  initialize_rooms w
  = match collection ROOMS_FILE w with
    | [] =>
        match write_failure ROOMS_FILE w with
        | Some e =>
            mkRun (Ok tt) w (load_page ROOMS_FILE w ++ [StErrorSaving e])
        | None =>
            mkRun (Ok tt)
              (mkWorld (Holds default_rooms) (bookings_json w)
                       (customers_json w) (clock w) (ticks w) (write_error w))
              (load_page ROOMS_FILE w)
        end
    | _ :: _ => mkRun (Ok tt) w (load_page ROOMS_FILE w)
    end.
Proof.
  unfold initialize_rooms.
  rewrite (bind_run _ _ _ _ _ _ (load_data_run ROOMS_FILE w)).
  destruct (collection ROOMS_FILE w).
  - rewrite save_data_run.
    destruct (write_failure ROOMS_FILE w); simpl; [easy|now rewrite app_nil_r].
  - simpl. now rewrite app_nil_r.
Qed.

(** What one visit does to the three collections. *)
Lemma visit_effect (w w' : World) :
  visit w w' ->
  (* rooms *)
  ((collection ROOMS_FILE w = [] /\ collection ROOMS_FILE w' = default_rooms)
   \/ map room_identity (collection ROOMS_FILE w')
      = map room_identity (collection ROOMS_FILE w))
  (* bookings *)
  /\ (exists more, collection BOOKINGS_FILE w'
                   = collection BOOKINGS_FILE w ++ more)
  (* customers *)
  /\ (collection CUSTOMERS_FILE w' = collection CUSTOMERS_FILE w
      \/ exists c, collection CUSTOMERS_FILE w'
                   = collection CUSTOMERS_FILE w ++ [c]
                   /\ ~ In (Customer.email c)
                           (map Customer.email (collection CUSTOMERS_FILE w))).
Proof.
  intros [w0|f submitted w0|n s w0].
  - rewrite initialize_rooms_run.
    destruct (collection ROOMS_FILE w0) eqn:E;
      [destruct (write_failure ROOMS_FILE w0)|]; simpl.
    + split; [right; now rewrite E|].
      split; [exists []; now rewrite app_nil_r|now left].
    + split; [now left|]. split; [exists []; now rewrite app_nil_r|now left].
    + split; [right; now rewrite E|].
      split; [exists []; now rewrite app_nil_r|now left].
  - destruct (booking_system_cases f submitted w0)
      as [(_ & Hw & _)|[(_ & _ & Hw & _)|[(_ & _ & _ & Hw & _)
         |(-> & Ht & Hd & Ha & Hv & sel & Hs)]]].
    + rewrite Hw.
      split; [now right|]. split; [exists []; now rewrite app_nil_r|now left].
    + rewrite Hw.
      split; [now right|]. split; [exists []; now rewrite app_nil_r|now left].
    + rewrite Hw.
      split; [now right|]. split; [exists []; now rewrite app_nil_r|now left].
    + assert (Hb : booked (booking_system f true w0)).
      { rewrite (page_run_form f w0 Ha Hd).
        destruct (booked_effects _ f w0 sel Hv Hs Ht) as (v & _ & _ & Hp & _).
        eexists. cbn [page]. apply in_or_app. right. exact Hp. }
      destruct (booked_world f true w0 Hb)
        as (sel' & v & _ & _ & _ & _ & _ & Hr & Hbk & Hc & _).
      rewrite (collection_saved ROOMS_FILE _ _ _ Hr),
        (collection_saved BOOKINGS_FILE _ _ _ Hbk).
      split; [right|split].
      * destruct (write_failure ROOMS_FILE w0); [easy|apply occupy_identity].
      * destruct (write_failure BOOKINGS_FILE w0);
          [exists []; now rewrite app_nil_r|now eexists].
      * destruct (known_email _ _) eqn:Hk.
        { left. now apply collection_same. }
        rewrite (collection_saved CUSTOMERS_FILE _ _ _ Hc).
        destruct (write_failure CUSTOMERS_FILE w0); [now left|right].
        exists (customer_of f w0). split; [easy|].
        intros Hin. apply in_map_iff in Hin as (c & Hce & Hin).
        assert (known_email (Form.customer_email f)
                            (collection CUSTOMERS_FILE w0) = true)
          by (apply known_email_iff; now exists c).
        congruence.
  - rewrite update_room_status_run.
    destruct (write_failure ROOMS_FILE w0); simpl.
    + split; [now right|]. split; [exists []; now rewrite app_nil_r|now left].
    + split; [right; apply set_status_identity|].
      split; [exists []; now rewrite app_nil_r|now left].
Qed.

Lemma emails_unique_step (w w' : World) :
  visit w w' -> emails_unique w -> emails_unique w'.
Proof.
  intros Hv. destruct (visit_effect w w' Hv) as (_ & _ & [E|(c & E & Hc)]);
    unfold emails_unique; rewrite E; [easy|].
  intros Hnd. rewrite map_app. apply NoDup_app. split; [easy|]. split.
  - intros x Hx Hx'. apply list_elem_of_In in Hx'. destruct Hx' as [<-|[]].
    apply Hc. now apply list_elem_of_In.
  - apply NoDup_singleton.
Qed.

(** X11: however the pages are visited (sessions started, booking forms
    shown or submitted, room statuses updated), customer records keep
    pairwise different e-mails if they had them at the start. *)
Theorem customer_emails_stay_unique (w w' : World) :
  sequence visit w w' -> emails_unique w -> emails_unique w'.
Proof.
  induction 1 as [|w w' w'' Hv _ IH]; [easy|].
  intros H. apply IH. exact (emails_unique_step w w' Hv H).
Qed.

Lemma customer_emails_witness :
  emails_unique
    (world (booking_system asha true
              (world (booking_system asha true (hotel default_rooms))))).
Proof.
  apply (customer_emails_stay_unique (hotel default_rooms)).
  - eapply sequence_cons; [apply visit_booking|].
    eapply sequence_cons; [apply visit_booking|]. apply sequence_nil.
  - apply NoDup_nil_2.
Defined.





(** While the rooms file can be written, a start of a session or a run
    of the booking page keeps every booking with an Occupied room, and the
    rooms file stays one that can be written. *)
Lemma bookings_hold_rooms_step (w w' : World) :
  booking_visit w w' ->
  write_failure ROOMS_FILE w = None ->
  bookings_hold_rooms w ->
  write_failure ROOMS_FILE w' = None /\ bookings_hold_rooms w'.
Proof.
  intros [w0|f submitted w0] Hwr Hinv.
  - rewrite initialize_rooms_run, Hwr.
    destruct (collection ROOMS_FILE w0) eqn:E; cbn [world]; [|easy].
    split.
    + unfold write_failure. simpl. exact (write_failure_None _ _ Hwr).
    + intros b Hb. destruct (Hinv b Hb) as (r & Hr & _).
      rewrite E in Hr. easy.
  - destruct (booking_system_cases f submitted w0)
      as [(_ & Hw & _)|[(_ & _ & Hw & _)|[(_ & _ & _ & Hw & _)
         |(-> & Ht & Hd & Ha & Hv & sel & Hs)]]];
      [now rewrite Hw|now rewrite Hw|now rewrite Hw|].
    assert (Hb : booked (booking_system f true w0)).
    { rewrite (page_run_form f w0 Ha Hd).
      destruct (booked_effects _ f w0 sel Hv Hs Ht) as (v & _ & _ & Hp & _).
      eexists. cbn [page]. apply in_or_app. right. exact Hp. }
    destruct (booked_world f true w0 Hb)
      as (sel' & v & _ & _ & Hin & _ & _ & Hr & Hbk & _ & He & _).
    split.
    { now rewrite (write_failure_saved ROOMS_FILE _ _ _ Hr He). }
    intros b. rewrite (collection_saved ROOMS_FILE _ _ _ Hr), Hwr,
      (collection_saved BOOKINGS_FILE _ _ _ Hbk).
    assert (Hold : In b (collection BOOKINGS_FILE w0) ->
                   exists r, In r (map (occupy sel') (collection ROOMS_FILE w0))
                             /\ Room.room_number r = Booking.room_number b
                             /\ Room.status r = "Occupied").
    { intros Hb0. destruct (Hinv b Hb0) as (r & Hr0 & Hn & Ho).
      exists (occupy sel' r). split; [now apply in_map|].
      split; [now rewrite occupy_number|now apply occupy_keeps_occupied]. }
    destruct (write_failure BOOKINGS_FILE w0); [exact Hold|].
    intros Hb0. apply in_app_or in Hb0 as [Hb0|[<-|[]]]; [now apply Hold|].
    exists (occupy sel' sel'). split; [now apply in_map|].
    now rewrite occupy_selected.
Qed.

(** X14: when the rooms file can be written, then, as long as only
    sessions are started and the booking page is used, every booking on
    file names a room that the rooms file has as Occupied, if that was so
    at the start. *)
Theorem booked_rooms_stay_occupied (w w' : World) :
  sequence booking_visit w w' ->
  write_failure ROOMS_FILE w = None ->
  bookings_hold_rooms w -> bookings_hold_rooms w'.
Proof.
  induction 1 as [|w w' w'' Hv _ IH]; [easy|].
  intros Hwr H.
  destruct (bookings_hold_rooms_step w w' Hv Hwr H) as [Hwr' H'].
  now apply IH.
Qed.

Lemma booked_rooms_witness :
  bookings_hold_rooms
    (world (booking_system ravi true
              (world (booking_system asha true (hotel default_rooms))))).
Proof.
  apply (booked_rooms_stay_occupied (hotel default_rooms)).
  - eapply sequence_cons; [apply bvisit_booking|].
    eapply sequence_cons; [apply bvisit_booking|]. apply sequence_nil.
  - reflexivity.
  - intros b [].
Defined.

(* ================================================================== *)
(** * "Update Status" *)
(* ================================================================== *)

(** X15: the loop of "Update Status" changes the status of the first room
    that has the number, and nothing else: rooms before it, rooms after it
    (also those with the same number) and the other fields of the room
    stay; with no such room the list is saved as it was loaded. *)
Theorem update_status_changes_first_match
  (room_to_update new_status : string) (rooms : list Room.t) :
  match status_of room_to_update rooms with
  | None => set_status room_to_update new_status rooms = rooms
  | Some old =>
      exists before room after,
        rooms = before ++ room :: after
        /\ Room.room_number room = room_to_update
        /\ Room.status room = old
        /\ (forall r, In r before -> Room.room_number r <> room_to_update)
        /\ set_status room_to_update new_status rooms
           = before
             ++ Room.mk (Room.room_number room) (Room.room_type room)
                        (Room.price room) (Room.capacity room) new_status
             :: after
  end.
Proof.
  destruct (status_of room_to_update rooms) as [old|] eqn:E.
  - now apply set_status_first.
  - now apply set_status_absent.
Qed.

(** X16: reading a status back after "Update Status": the room number
    that was updated reads the new status if the number exists, and every
    other number reads what it read before. *)
Theorem update_status_read_back
  (room_to_update new_status room_number : string) (rooms : list Room.t) :
  status_of room_number (set_status room_to_update new_status rooms)
  = if bool_decide (room_number = room_to_update)
    then match status_of room_to_update rooms with
         | Some _ => Some new_status
         | None => None
         end
    else status_of room_number rooms.
Proof. apply status_of_set_status. Qed.

(** X17: two presses of "Update Status" for the same room leave the files
    as the second press alone would: the last status wins, and bookings
    and customers are not touched. *)
Theorem update_status_last_press_wins
  (room_to_update s1 s2 : string) (w : World) :
  world (update_room_status room_to_update s2
           (world (update_room_status room_to_update s1 w)))
  = world (update_room_status room_to_update s2 w)
  /\ bookings_json (world (update_room_status room_to_update s2 w))
     = bookings_json w
  /\ customers_json (world (update_room_status room_to_update s2 w))
     = customers_json w.
Proof.
  rewrite !(update_room_status_run _ _ w).
  destruct (write_failure ROOMS_FILE w) eqn:E; cbn [world].
  - rewrite update_room_status_run, E. easy.
  - rewrite update_room_status_run.
    pose proof (write_failure_None _ _ E) as Hn. simpl in Hn.
    unfold write_failure at 1. simpl. rewrite Hn. cbn [world].
    split; [|easy]. unfold collection at 1. simpl.
    now rewrite set_status_again.
Qed.

Lemma status_of_In (r : Room.t) (rooms : list Room.t) :
  NoDup (map Room.room_number rooms) ->
  In r rooms ->
  status_of (Room.room_number r) rooms = Some (Room.status r).
Proof.
  induction rooms as [|a rooms IH]; simpl; [easy|].
  intros Hnd. apply NoDup_cons in Hnd as [Ha Hnd].
  rewrite list_elem_of_In in Ha. intros [->|Hr].
  - now rewrite bool_decide_eq_true_2.
  - rewrite bool_decide_eq_false_2; [now apply IH|].
    intros E. apply Ha. rewrite E. now apply in_map.
Qed.

(** X18: when the rooms file and the bookings file can be written and
    room numbers are all different, setting the room of a booking that was
    just confirmed back to "Available" gives the rooms file its content
    from before the booking, while the booking stays on file:
    "Update Status" frees a room without cancelling its booking. *)
Theorem freeing_a_booked_room_keeps_the_booking (f : Form.t) (w : World) :
  write_failure ROOMS_FILE w = None ->
  write_failure BOOKINGS_FILE w = None ->
  booked (booking_system f true w) ->
  NoDup (map Room.room_number (collection ROOMS_FILE w)) ->
  exists b,
    collection BOOKINGS_FILE (world (booking_system f true w))
    = collection BOOKINGS_FILE w ++ [b]
    /\ collection ROOMS_FILE
         (world (update_room_status (Booking.room_number b) "Available"
                   (world (booking_system f true w))))
       = collection ROOMS_FILE w
    /\ collection BOOKINGS_FILE
         (world (update_room_status (Booking.room_number b) "Available"
                   (world (booking_system f true w))))
       = collection BOOKINGS_FILE w ++ [b].
Proof.
  intros Hwr Hwb Hb Hnd.
  destruct (booked_world f true w Hb)
    as (sel & v & _ & _ & Hin & Ha & _ & Hr & Hbk & _ & He & _).
  set (w1 := world (booking_system f true w)) in *.
  exists (booking_of f sel v w).
  assert (Hb1 : collection BOOKINGS_FILE w1
                = collection BOOKINGS_FILE w ++ [booking_of f sel v w]).
  { now rewrite (collection_saved BOOKINGS_FILE _ _ _ Hbk), Hwb. }
  assert (Hr1 : collection ROOMS_FILE w1
                = map (occupy sel) (collection ROOMS_FILE w)).
  { now rewrite (collection_saved ROOMS_FILE _ _ _ Hr), Hwr. }
  split; [exact Hb1|].
  rewrite update_room_status_run,
    (write_failure_saved ROOMS_FILE _ _ _ Hr He), Hwr. cbn [world].
  split; [|exact Hb1].
  unfold collection at 1. simpl. rewrite Hr1.
  rewrite (occupy_set_status sel _ Hnd), set_status_again.
  apply set_status_same. rewrite <- Ha. now apply status_of_In.
Qed.

Lemma freeing_a_booked_room_witness :
  exists b,
    collection BOOKINGS_FILE
      (world (booking_system asha true (hotel default_rooms)))
    = collection BOOKINGS_FILE (hotel default_rooms) ++ [b]
    /\ collection ROOMS_FILE
         (world (update_room_status (Booking.room_number b) "Available"
                   (world (booking_system asha true (hotel default_rooms)))))
       = collection ROOMS_FILE (hotel default_rooms)
    /\ collection BOOKINGS_FILE
         (world (update_room_status (Booking.room_number b) "Available"
                   (world (booking_system asha true (hotel default_rooms)))))
       = collection BOOKINGS_FILE (hotel default_rooms) ++ [b].
Proof.
  apply (freeing_a_booked_room_keeps_the_booking asha (hotel default_rooms)).
  - reflexivity.
  - reflexivity.
  - exists "BK20241101090507". vm_compute. tauto.
  - apply (bool_decide_unpack _). vm_compute. exact I.
Defined.

(* ================================================================== *)
(** * The counts of the dashboard *)
(* ================================================================== *)

Lemma occupied_rooms_app (xs ys : list Room.t) :
  occupied_rooms (xs ++ ys) = (occupied_rooms xs + occupied_rooms ys)%nat.
Proof. unfold occupied_rooms. now rewrite filter_app, length_app. Qed.

Lemma occupied_rooms_cons (r : Room.t) (rooms : list Room.t) :
  occupied_rooms (r :: rooms)
  = ((if bool_decide (Room.status r = "Occupied") then 1 else 0)
     + occupied_rooms rooms)%nat.
Proof.
  unfold occupied_rooms. destruct (decide (Room.status r = "Occupied")) as [E|E].
  - now rewrite filter_cons_True, bool_decide_eq_true_2.
  - now rewrite filter_cons_False, bool_decide_eq_false_2.
Qed.

(** X19: what the dashboard counts after a confirmed booking, when the
    three files can be written and room numbers are all different: one
    booking more, one occupied room more, and one customer more exactly
    when the e-mail was not on file. *)
Theorem dashboard_counts_after_a_booking (f : Form.t) (w : World) :
  write_failure ROOMS_FILE w = None ->
  write_failure BOOKINGS_FILE w = None ->
  write_failure CUSTOMERS_FILE w = None ->
  booked (booking_system f true w) ->
  NoDup (map Room.room_number (collection ROOMS_FILE w)) ->
  length (collection BOOKINGS_FILE (world (booking_system f true w)))
  = S (length (collection BOOKINGS_FILE w))
  /\ occupied_rooms (collection ROOMS_FILE (world (booking_system f true w)))
     = S (occupied_rooms (collection ROOMS_FILE w))
  /\ length (collection ROOMS_FILE (world (booking_system f true w)))
     = length (collection ROOMS_FILE w)
  /\ length (collection CUSTOMERS_FILE (world (booking_system f true w)))
     = if known_email (Form.customer_email f) (collection CUSTOMERS_FILE w)
       then length (collection CUSTOMERS_FILE w)
       else S (length (collection CUSTOMERS_FILE w)).
Proof.
  intros Hwr Hwb Hwc Hb Hnd.
  destruct (booked_world f true w Hb)
    as (sel & v & _ & _ & Hin & Ha & _ & Hr & Hbk & Hc & _).
  rewrite (collection_saved ROOMS_FILE _ _ _ Hr), Hwr,
    (collection_saved BOOKINGS_FILE _ _ _ Hbk), Hwb.
  split; [rewrite length_app; simpl; lia|].
  split; [|split].
  - rewrite (occupy_set_status sel _ Hnd).
    pose proof (status_of_In sel _ Hnd Hin) as Hs.
    destruct (set_status_first _ "Occupied" _ _ Hs)
      as (before & room & after & E & _ & Ho & _ & ->).
    rewrite E, !occupied_rooms_app, !occupied_rooms_cons. simpl.
    rewrite Ho, Ha. simpl. lia.
  - now rewrite length_map.
  - destruct (known_email _ _).
    + now rewrite (collection_same CUSTOMERS_FILE _ _ Hc).
    + rewrite (collection_saved CUSTOMERS_FILE _ _ _ Hc), Hwc.
      rewrite length_app. simpl. lia.
Qed.

Lemma dashboard_counts_witness :
  length (collection BOOKINGS_FILE
            (world (booking_system asha true (hotel default_rooms))))
  = 1%nat
  /\ occupied_rooms
       (collection ROOMS_FILE
          (world (booking_system asha true (hotel default_rooms))))
     = 1%nat
  /\ length (collection ROOMS_FILE
               (world (booking_system asha true (hotel default_rooms))))
     = 7%nat
  /\ length (collection CUSTOMERS_FILE
               (world (booking_system asha true (hotel default_rooms))))
     = 1%nat.
Proof.
  apply (dashboard_counts_after_a_booking asha (hotel default_rooms)).
  - reflexivity.
  - reflexivity.
  - reflexivity.
  - exists "BK20241101090507". vm_compute. tauto.
  - apply (bool_decide_unpack _). vm_compute. exact I.
Defined.

(* ================================================================== *)
(** * The most recent records ([sorted(..., reverse=True)[:n]]) *)
(* ================================================================== *)

Lemma string_compare_lt_trans (a b c : string) :
  String.compare a b = Lt -> String.compare b c = Lt -> String.compare a c = Lt.
Proof.
  revert b c. induction a as [|x a IH]; intros [|y b] [|z c]; simpl; try easy.
  unfold Ascii.compare.
  destruct (N.compare_spec (N_of_ascii x) (N_of_ascii y)) as [Exy|Lxy|Gxy];
    try discriminate;
    destruct (N.compare_spec (N_of_ascii y) (N_of_ascii z)) as [Eyz|Lyz|Gyz];
    try discriminate; intros H1 H2.
  - rewrite Exy, Eyz, N.compare_refl. now apply (IH b).
  - rewrite Exy. now apply N.compare_lt_iff in Lyz as ->.
  - rewrite <- Eyz. now apply N.compare_lt_iff in Lxy as ->.
  - assert (N_of_ascii x < N_of_ascii z)%N as L by lia.
    now apply N.compare_lt_iff in L as ->.
Qed.

Section Recent.
Context {A : Type} (key : A -> string).

Lemma not_before_trans (a b c : A) :
  not_before key a b -> not_before key b c -> not_before key a c.
Proof.
  unfold not_before, String.ltb. intros Hab Hbc.
  destruct (String.compare (key a) (key c)) eqn:Hac; try easy.
  destruct (String.compare (key a) (key b)) eqn:E; [|discriminate|].
  - apply String.compare_eq_iff in E. rewrite <- E, Hac in Hbc. discriminate.
  - rewrite String.compare_antisym in E.
    destruct (String.compare (key b) (key a)) eqn:E'; try discriminate.
    now rewrite (string_compare_lt_trans _ _ _ E' Hac) in Hbc.
Qed.

Lemma not_before_of_lt (x y : A) :
  String.ltb (key x) (key y) = true -> not_before key y x.
Proof.
  unfold not_before, String.ltb. rewrite (String.compare_antisym (key y)).
  now destruct (String.compare (key x) (key y)).
Qed.

Lemma insert_desc_perm (x : A) (l : list A) :
  insert_desc key x l ≡ₚ x :: l.
Proof.
  induction l as [|y l IH]; simpl; [easy|].
  destruct (String.ltb (key x) (key y)); [|easy].
  rewrite IH. apply perm_swap.
Qed.

Lemma sorted_desc_perm (xs : list A) : sorted_desc key xs ≡ₚ xs.
Proof.
  induction xs as [|x xs IH]; simpl; [easy|].
  now rewrite insert_desc_perm, IH.
Qed.

Lemma insert_desc_sorted (x : A) (l : list A) :
  StronglySorted (not_before key) l ->
  StronglySorted (not_before key) (insert_desc key x l).
Proof.
  induction 1 as [|y l Hs IH Hy]; simpl.
  - repeat constructor.
  - destruct (String.ltb (key x) (key y)) eqn:E.
    + constructor; [easy|]. rewrite insert_desc_perm.
      constructor; [now apply not_before_of_lt|easy].
    + constructor; [now constructor|]. constructor; [easy|].
      eapply Forall_impl; [exact Hy|]. intros z Hz.
      now apply (not_before_trans x y z).
Qed.

Lemma sorted_desc_sorted (xs : list A) :
  StronglySorted (not_before key) (sorted_desc key xs).
Proof.
  induction xs as [|x xs IH]; simpl; [constructor|].
  now apply insert_desc_sorted.
Qed.

Lemma StronglySorted_app_parts (R : A -> A -> Prop) (l1 l2 : list A) :
  StronglySorted R (l1 ++ l2) ->
  StronglySorted R l1
  /\ forall a b, In a l1 -> In b l2 -> R a b.
Proof.
  induction l1 as [|x l1 IH]; simpl.
  - split; [constructor|easy].
  - intros H. apply StronglySorted_inv in H as [Hs Hx].
    destruct (IH Hs) as [H1 H2]. apply Forall_app in Hx as [Hx1 Hx2].
    split; [now constructor|].
    intros a b [<-|Ha] Hb; [|now apply H2].
    rewrite Forall_forall in Hx2. now apply Hx2, list_elem_of_In.
Qed.

Lemma insert_desc_filter (k : string) (x : A) (l : list A) :
  filter (fun a => key a = k) (insert_desc key x l)
  = filter (fun a => key a = k) (x :: l).
Proof.
  induction l as [|y l IH]; simpl; [easy|].
  destruct (String.ltb (key x) (key y)) eqn:E; [|easy].
  assert (key y <> key x) as Hne.
  { intros Heq. rewrite Heq in E. unfold String.ltb in E.
    destruct (String.compare (key x) (key x)) eqn:C; try discriminate.
    pose proof (String.compare_antisym (key x) (key x)) as Ha.
    rewrite C in Ha. discriminate. }
  destruct (decide (key y = k)) as [Ey|Ey];
    destruct (decide (key x = k)) as [Ex|Ex]; [congruence| | |].
  - rewrite (filter_cons_True _ y) by easy. rewrite IH.
    rewrite (filter_cons_False _ x) by easy.
    rewrite (filter_cons_False _ x) by easy.
    now rewrite (filter_cons_True _ y) by easy.
  - rewrite (filter_cons_False _ y) by easy. rewrite IH.
    rewrite !(filter_cons_True _ x) by easy.
    now rewrite (filter_cons_False _ y) by easy.
  - rewrite (filter_cons_False _ y) by easy. rewrite IH.
    rewrite !(filter_cons_False _ x) by easy.
    now rewrite (filter_cons_False _ y) by easy.
Qed.

(** X20: the "recent" tables show the [n] records with the greatest dates
    ([n] = 5 bookings on the dashboard, 3 feedback entries on the feedback
    page): the records shown and the records left out are together the
    records on file, there are [min n (length xs)] of them, they are shown
    latest first, and no record left out is later than a record shown. *)
Theorem recent_shows_the_latest (n : nat) (xs : list A) :
  recent n key xs ++ skipn n (sorted_desc key xs) ≡ₚ xs
  /\ length (recent n key xs) = Nat.min n (length xs)
  /\ StronglySorted (not_before key) (recent n key xs)
  /\ forall a b,
       In a (recent n key xs) -> In b (skipn n (sorted_desc key xs)) ->
       not_before key a b.
Proof.
  unfold recent. split; [|split].
  - rewrite firstn_skipn. apply sorted_desc_perm.
  - rewrite length_firstn. now rewrite (Permutation_length (sorted_desc_perm xs)).
  - apply StronglySorted_app_parts. rewrite firstn_skipn.
    apply sorted_desc_sorted.
Qed.

(** X21: the sort behind the "recent" tables is stable: records with the
    same date (the dates have a resolution of one second) come out in the
    order they have in the file. *)
Theorem sorted_desc_is_stable (k : string) (xs : list A) :
  filter (fun a => key a = k) (sorted_desc key xs)
  = filter (fun a => key a = k) xs.
Proof.
  induction xs as [|x xs IH]; simpl; [easy|].
  rewrite insert_desc_filter.
  destruct (decide (key x = k)) as [E|E].
  - rewrite !(filter_cons_True _ x) by easy. now rewrite IH.
  - rewrite !(filter_cons_False _ x) by easy. now rewrite IH.
Qed.

End Recent.

(* ================================================================== *)
(** * More on the validators *)
(* ================================================================== *)

Ltac ascii_cases c := destruct c as [[] [] [] [] [] [] [] []].

Lemma local_char_not_space (c : ascii) :
  local_char c = true -> is_space c = false.
Proof. ascii_cases c; vm_compute; congruence. Qed.

Lemma domain_char_not_space (c : ascii) :
  domain_char c = true -> is_space c = false.
Proof. ascii_cases c; vm_compute; congruence. Qed.

Lemma is_letter_not_space (c : ascii) :
  is_letter c = true -> is_space c = false.
Proof. ascii_cases c; vm_compute; congruence. Qed.

Lemma forallb_not_space (p : ascii -> bool) (l : list ascii) :
  (forall c, p c = true -> is_space c = false) ->
  forallb p l = true ->
  forallb (fun c => negb (is_space c)) l = true.
Proof.
  intros Hp H. apply forallb_forall. intros c Hc.
  rewrite forallb_forall in H. now rewrite (Hp c (H c Hc)).
Qed.

Lemma forallb_count_occ (p : ascii -> bool) (l : list ascii) (x : ascii) :
  forallb p l = true -> p x = false ->
  count_occ Ascii.ascii_dec l x = 0%nat.
Proof.
  intros H Hx. apply count_occ_not_In. intros Hin.
  rewrite forallb_forall in H. rewrite (H x Hin) in Hx. discriminate.
Qed.

Lemma email_shape_facts (s : list ascii) :
  email_shape s ->
  count_occ Ascii.ascii_dec s "@"%char = 1%nat
  /\ forallb (fun c => negb (is_space c)) s = true
  /\ exists c t, s = c :: t /\ is_space c = false.
Proof.
  intros (loc & domain & tld & -> & Hloc & Hl & _ & Hd & _ & Ht).
  split; [|split].
  - rewrite count_occ_app. simpl. rewrite count_occ_app. simpl.
    rewrite (forallb_count_occ _ _ _ Hl), (forallb_count_occ _ _ _ Hd),
      (forallb_count_occ _ _ _ Ht); reflexivity.
  - rewrite forallb_app. simpl. rewrite forallb_app. simpl.
    rewrite (forallb_not_space _ _ local_char_not_space Hl).
    rewrite (forallb_not_space _ _ domain_char_not_space Hd).
    now rewrite (forallb_not_space _ _ is_letter_not_space Ht).
  - destruct loc as [|c loc]; [easy|]. simpl in Hl.
    apply andb_prop in Hl as [Hc _]. exists c. eexists. split; [reflexivity|].
    now apply local_char_not_space.
Qed.

Lemma lstrip_snoc (xs : list ascii) (c : ascii) :
  is_space c = false -> lstrip (xs ++ [c]) = lstrip xs ++ [c].
Proof.
  intros Hc. induction xs as [|x xs IH]; simpl; [now rewrite Hc|].
  now destruct (is_space x).
Qed.

Lemma rstrip_cons (c : ascii) (t : list ascii) :
  is_space c = false -> rstrip (c :: t) = c :: rstrip t.
Proof.
  intros Hc. unfold rstrip. simpl. rewrite (lstrip_snoc _ _ Hc).
  now rewrite rev_app_distr.
Qed.

Lemma lstrip_idem (l : list ascii) : lstrip (lstrip l) = lstrip l.
Proof.
  induction l as [|c l IH]; simpl; [easy|].
  destruct (is_space c) eqn:E; [easy|]. simpl. now rewrite E.
Qed.

Lemma rstrip_idem (l : list ascii) : rstrip (rstrip l) = rstrip l.
Proof. unfold rstrip. now rewrite rev_involutive, lstrip_idem. Qed.

Lemma of_chars_chars (s : string) : of_chars (chars s) = s.
Proof. apply string_of_list_ascii_of_string. Qed.

Lemma strip_idem (s : string) : strip (strip s) = strip s.
Proof.
  unfold strip. rewrite chars_of_chars. f_equal.
  destruct (lstrip (chars s)) as [|c t] eqn:E; [reflexivity|].
  pose proof (lstrip_head _ _ _ E) as Hc.
  rewrite (rstrip_cons _ _ Hc). simpl. rewrite Hc.
  now rewrite (rstrip_cons _ _ Hc), rstrip_idem.
Qed.

Lemma strip_head (s : string) (c : ascii) (t : list ascii) :
  chars s = c :: t -> is_space c = false -> truthy (strip s) = true.
Proof.
  intros E Hc. unfold strip. rewrite E. simpl. rewrite Hc.
  now rewrite (rstrip_cons _ _ Hc).
Qed.

Lemma validate_email_not_blank (email : string) :
  validate_email email = true -> truthy (strip email) = true.
Proof.
  intros H. apply validate_email_iff in H as [H|(t & E & H)];
    apply email_shape_facts in H as (_ & _ & c & t' & Hs & Hc).
  - exact (strip_head _ _ _ Hs Hc).
  - rewrite Hs in E. exact (strip_head _ _ _ E Hc).
Qed.

Lemma validate_phone_not_blank (phone : string) :
  validate_phone phone = true -> truthy (strip phone) = true.
Proof.
  unfold validate_phone. now destruct (strip phone).
Qed.

(** X22: on the booking form the tests for a blank e-mail and a blank
    phone number add nothing to the two validators: the e-mail error is
    reported exactly when [validate_email] rejects the text, the phone
    error exactly when [validate_phone] does. *)
Theorem format_checks_subsume_blank_checks (f : Form.t) :
  (In email_required (validation_errors f)
   <-> validate_email (Form.customer_email f) = false)
  /\ (In phone_required (validation_errors f)
      <-> validate_phone (Form.customer_phone f) = false).
Proof.
  destruct (validation_errors_In f) as (_ & He & Hp & _).
  rewrite He, Hp. unfold email_bad, phone_bad. split; split; auto.
  - intros [H|H]; [|easy]. apply truthy_false in H.
    destruct (validate_email _) eqn:E; [|easy].
    apply validate_email_not_blank in E. congruence.
  - intros [H|H]; [|easy]. apply truthy_false in H.
    destruct (validate_phone _) eqn:E; [|easy].
    apply validate_phone_not_blank in E. congruence.
Qed.

(** X23: a text that [validate_email] accepts has exactly one [@] and no
    whitespace, apart from one newline that may end it: unlike a phone
    number, an e-mail is not trimmed before it is matched. *)
Theorem valid_email_has_one_at_and_no_space (email : string) :
  validate_email email = true ->
  count_occ Ascii.ascii_dec (chars email) "@"%char = 1%nat
  /\ exists t,
       (chars email = t \/ chars email = t ++ [newline])
       /\ forallb (fun c => negb (is_space c)) t = true.
Proof.
  intros H. apply validate_email_iff in H as [H|(t & E & H)];
    apply email_shape_facts in H as (Hat & Hsp & _).
  - split; [easy|]. exists (chars email). auto.
  - rewrite E. split; [|exists t; auto].
    rewrite count_occ_app, Hat. reflexivity.
Qed.

Lemma valid_email_witness :
  count_occ Ascii.ascii_dec (chars "guest@hotel.example") "@"%char = 1%nat
  /\ exists t,
       (chars "guest@hotel.example" = t
        \/ chars "guest@hotel.example" = t ++ [newline])
       /\ forallb (fun c => negb (is_space c)) t = true.
Proof.
  apply (valid_email_has_one_at_and_no_space "guest@hotel.example").
  vm_compute. reflexivity.
Defined.

(** X24: [validate_phone] trims before it matches, and trimming twice is
    trimming once: a phone number is judged as its trimmed text is. *)
Theorem validate_phone_ignores_outer_whitespace (phone : string) :
  strip (strip phone) = strip phone
  /\ validate_phone (strip phone) = validate_phone phone.
Proof.
  split; [apply strip_idem|]. unfold validate_phone. now rewrite strip_idem.
Qed.

(* ================================================================== *)
(** * The feedback form *)
(* ================================================================== *)

(** [loaded] and [loading_errors] are what [load_data] returns and shows,
    for any path. *)
Lemma load_data_loaded {A} (p : path A) (w : World) :
  load_data p w
  = mkRun (Ok (loaded (file_at p w))) w
          (map StErrorLoading (loading_errors (file_at p w))).
Proof.
  rewrite load_data_run. unfold collection, load_page, loaded, loading_errors.
  now destruct (file_at p w).
Qed.


(* ================================================================== *)
(** * Longer stays *)
(* ================================================================== *)

Lemma nights_times_percent (n n' : Z) :
  1 <= n < n' -> n * percent_kept n < n' * percent_kept n'.
Proof.
  unfold percent_kept. intros H.
  destruct (Z.leb_spec 7 n), (Z.leb_spec 3 n),
    (Z.leb_spec 7 n'), (Z.leb_spec 3 n'); lia.
Qed.

(** X26: within a year and for 1 to 6 guests a longer stay costs more:
    the two steps of the discount (10% from 3 nights, 15% from 7) never
    make the amount for more nights less than, or equal to, the amount for
    fewer nights. The amounts are compared in exact arithmetic, which the
    floats of the code match on this range. *)
Theorem longer_stay_costs_more (room_type : string) (nights nights' guests : Z) :
  1 <= nights < nights' -> nights' <= 366 -> 1 <= guests <= 6 ->
  exists total_amount total_amount' rupees rupees',
    calculate_booking_amount room_type nights guests = Ok total_amount
    /\ calculate_booking_amount room_type nights' guests = Ok total_amount'
    /\ py_eq total_amount (PyInt rupees) = true
    /\ py_eq total_amount' (PyInt rupees') = true
    /\ rupees < rupees'.
Proof.
  intros Hn Hn' Hg.
  destruct (calculate_on_year_grid room_type nights guests) as (a & Ha & Ea);
    [lia|lia|].
  destruct (calculate_on_year_grid room_type nights' guests) as (a' & Ha' & Ea');
    [lia|lia|].
  exists a, a', (exact_amount (table_price room_type) nights guests),
    (exact_amount (table_price room_type) nights' guests).
  repeat split; try easy. rewrite !exact_amount_table.
  pose proof (nights_times_percent nights nights' Hn) as Hlt.
  apply Z.mul_lt_mono_pos_l; [|easy].
  destruct (table_price_cases room_type) as [-> |[-> |[-> | ->]]];
    match goal with
    | |- context [?b / 500] =>
        let q := eval vm_compute in (b / 500) in
        change (b / 500) with q
    end; lia.
Qed.

Lemma longer_stay_witness :
  exists total_amount total_amount' rupees rupees',
    calculate_booking_amount "Deluxe" 6 3 = Ok total_amount
    /\ calculate_booking_amount "Deluxe" 7 3 = Ok total_amount'
    /\ py_eq total_amount (PyInt rupees) = true
    /\ py_eq total_amount' (PyInt rupees') = true
    /\ rupees < rupees'.
Proof.
  apply (longer_stay_costs_more "Deluxe" 6 7 3); lia.
Defined.

(* ================================================================== *)
(** * Files *)
(* ================================================================== *)


(** X29: a booking confirmed while the bookings file is there but holds
    text that [json.load] refuses shows the error of loading and then,
    the file being one that can be written, replaces it by a file that
    holds the new booking alone: the page carries on with the empty list
    [load_data] gives, and saves over the file. *)
Theorem unparsable_bookings_file_is_overwritten
    (f : Form.t) (w : World) (e : exn) :
  booked (booking_system f true w) ->
  bookings_json w = Unparsable e ->
  write_error w BookingsJson = None ->
  In (StErrorLoading e) (page (booking_system f true w))
  /\ exists b, bookings_json (world (booking_system f true w)) = Holds [b].
Proof.
  intros Hb He Hw.
  destruct (booked_world f true w Hb)
    as (sel & v & _ & _ & _ & _ & _ & _ & Hbk & _ & _ & Hp).
  split.
  - rewrite Hp. apply in_or_app. right. apply in_or_app. right.
    apply in_or_app. left. unfold load_page. simpl. rewrite He. now left.
  - rewrite Hbk. unfold saved, write_failure, collection. simpl.
    rewrite He. simpl. rewrite Hw. now eexists.
Qed.

Lemma unparsable_bookings_witness :
  In (StErrorLoading (JSONDecodeError "Expecting value"))
     (page (booking_system asha true
              (mkWorld (Holds default_rooms)
                       (Unparsable (JSONDecodeError "Expecting value"))
                       Missing reading 0 writable)))
  /\ exists b,
       bookings_json
         (world (booking_system asha true
                   (mkWorld (Holds default_rooms)
                            (Unparsable (JSONDecodeError "Expecting value"))
                            Missing reading 0 writable)))
       = Holds [b].
Proof.
  apply (unparsable_bookings_file_is_overwritten asha).
  - exists "BK20241101090507". vm_compute. tauto.
  - reflexivity.
  - reflexivity.
Defined.
